(** * slideshow_maker/slideshow.py: planning, selection and orchestration

    A shallow embedding of [src/slideshow_maker/slideshow.py] and the
    properties of its slide planner, image selector and orchestrator.

    Conventions of the embedding.
    - Python [float]s are IEEE binary64 numbers, Rocq's primitive [float]:
      [+] and [/] round to nearest even as Python's do, [/] raises
      [ZeroDivisionError] on a divisor equal to zero, [int(x)] truncates
      toward zero and raises [OverflowError] on an infinity and
      [ValueError] on a NaN.  A duration given as a Python [int] is taken
      at its binary64 value (exact up to 2^53).  The exact value of a
      finite float is read as a rational [Q] where a statement needs it.
    - Python [int] slide counts are [Z].
    - Paths are [string]s, catalogs are [list string].
    - Exceptions are carried by [result]; the module-global random
      generator is threaded as explicit state.
    - The outside world (file system, media tools) is an abstract state;
      every call into [audio], [video], [glob], [os.remove] and the FFmpeg
      probe [print_ffmpeg_capabilities] is recorded in a call log.
    - Console output ([print], [show_progress]) is not part of the model,
      except that an expression computed for it that can raise (the
      [slides_needed * avg_duration] of the estimate) keeps its exception. *)

From Stdlib Require Import Ascii String ZArith QArith Qround List Bool Lia.
From Stdlib Require Import Sorted Permutation.
From Stdlib Require Import Floats.
Import ListNotations.

Open Scope Z_scope.

(** ** Exceptions and results *)

(** Python exceptions that the modelled code can raise.
    [InvalidDurationRange] is the name the specification's error taxonomy
    uses; no path of [slideshow.py] constructs it. *)
Inductive pyexn : Type :=
| ZeroDivisionError
| OverflowError
| ValueError
| IndexError
| InvalidDurationRange.

Inductive result (A : Type) : Type :=
| Ret (a : A)
| Raise (e : pyexn).

Arguments Ret {A} a.
Arguments Raise {A} e.

Definition result_bind {A B} (r : result A) (k : A -> result B) : result B :=
  match r with
  | Ret a => k a
  | Raise e => Raise e
  end.

(** ** Python arithmetic *)

Module Py.

(** The float is neither an infinity nor a NaN. *)
Definition is_finite (x : float) : bool :=
  match Prim2SF x with
  | S754_zero _ | S754_finite _ _ _ => true
  | S754_infinity _ | S754_nan => false
  end.

(** The exact value of a finite float ([0] for the others). *)
Definition to_Q (x : float) : Q :=
  match Prim2SF x with
  | S754_finite s m e =>
      let n := if s then Zneg m else Zpos m in
      if 0 <=? e then inject_Z (n * 2 ^ e)
      else n # Pos.pow 2 (Z.to_pos (- e))
  | _ => 0%Q
  end.

(** Truncation of a rational toward zero. *)
Definition trunc (x : Q) : Z := Z.quot (Qnum x) (Zpos (Qden x)).

(** [a / b] on floats. *)
Definition truediv (a b : float) : result float :=
  if (b =? 0)%float then Raise ZeroDivisionError else Ret (a / b)%float.

(** [int(x)] on a float. *)
Definition int (x : float) : result Z :=
  match Prim2SF x with
  | S754_nan => Raise ValueError
  | S754_infinity _ => Raise OverflowError
  | _ => Ret (trunc (to_Q x))
  end.

(** A Python int converts to a float unless it rounds past the largest
    binary64 number, that is unless [|n| >= 2^1024 - 2^970]. *)
Definition float_fits (n : Z) : bool :=
  Z.abs n <? 2 ^ 1024 - 2 ^ 970.

(** [n * x] for an int [n] and a float [x]: the int is converted first,
    which raises [OverflowError] when it does not fit.  The product itself
    only ever reaches the console, so it is not computed. *)
Definition mul_int_float (n : Z) (x : float) : result unit :=
  if float_fits n then Ret tt else Raise OverflowError.

(** [l[:n]] for a Python int [n]; a negative [n] counts from the end. *)
Definition slice_to {A} (l : list A) (n : Z) : list A :=
  if n <? 0
  then firstn (Z.to_nat (Z.max 0 (Z.of_nat (length l) + n))) l
  else firstn (Z.to_nat n) l.

End Py.

(** ** Configuration constants ([slideshow_maker/config.py]) *)

(** The constants imported from [.config]; their values are not part of
    [slideshow.py] and stay abstract. *)
Class Config : Type := {
  MAX_SLIDES_LIMIT : Z;
  AUDIO_OUTPUT : string;
  VIDEO_OUTPUT : string;
  FINAL_OUTPUT : string;
  IMAGE_EXTENSIONS : list string
}.

(** ** [calculate_slides_needed] *)

Section Planner.

Context {cfg : Config}.

Definition calculate_slides_needed
    (audio_duration min_duration max_duration : float) (test_mode : bool)
  : result Z :=
  if test_mode then
    let test_duration := 60%float in
    result_bind (Py.truediv (min_duration + max_duration) 2) (fun avg =>
    result_bind (Py.truediv test_duration avg) (fun q =>
    result_bind (Py.int q) (fun slides_needed =>
    Ret slides_needed)))
  else
    result_bind (Py.truediv (min_duration + max_duration) 2)
      (fun avg_duration =>
    result_bind (Py.truediv audio_duration avg_duration) (fun q =>
    result_bind (Py.int q) (fun slides_needed =>
    let slides_needed :=
      if slides_needed >? MAX_SLIDES_LIMIT then MAX_SLIDES_LIMIT
      else slides_needed in
    (* the estimate printed last: [slides_needed * avg_duration / 60] *)
    result_bind (Py.mul_int_float slides_needed avg_duration) (fun _ =>
    Ret slides_needed)))).

(** The average slide duration the planner divides by, and the quotient it
    hands to [int]. *)
Definition average (min_duration max_duration : float) : float :=
  ((min_duration + max_duration) / 2)%float.

Definition quotient (audio_duration min_duration max_duration : float)
    (test_mode : bool) : float :=
  if test_mode then (60 / average min_duration max_duration)%float
  else (audio_duration / average min_duration max_duration)%float.

End Planner.

(** ** The random generator and [select_images] *)

(** Python's module-global generator: [randbelow g n] is
    [random._randbelow(n)] run in generator state [g]. *)
Class Random (G : Type) : Type := {
  randbelow : G -> nat -> nat * G
}.

(** The contract of [_randbelow]: a draw below a positive bound is in range. *)
Definition randbelow_in_range {G : Type} {R : Random G} : Prop :=
  forall (g : G) (n : nat), (0 < n)%nat -> (fst (randbelow g n) < n)%nat.

(** Computations that may raise and that advance the generator. *)
Definition Rand (G A : Type) : Type := G -> result A * G.

Definition rand_ret {G A} (a : A) : Rand G A := fun g => (Ret a, g).

Definition rand_bind {G A B} (m : Rand G A) (k : A -> Rand G B) : Rand G B :=
  fun g =>
    match m g with
    | (Ret a, g') => k a g'
    | (Raise e, g') => (Raise e, g')
    end.

Section Selector.

Context {G : Type} {R : Random G}.

(** [random.choice(seq)]: [IndexError] on an empty sequence, otherwise
    [seq[_randbelow(len(seq))]]. *)
Definition random_choice (seq : list string) : Rand G string :=
  fun g =>
    match seq with
    | [] => (Raise IndexError, g)
    | _ :: _ =>
        let (i, g') := randbelow g (length seq) in
        match nth_error seq i with
        | Some img => (Ret img, g')
        | None => (Raise IndexError, g')
        end
    end.

(** The body of [for i in range(remaining)]: one draw and one
    [images.append(img)] per iteration. *)
Fixpoint fill_repeats (all_images : list string) (remaining : nat)
    (images : list string) : Rand G (list string) :=
  match remaining with
  | O => rand_ret images
  | S k =>
      rand_bind (random_choice all_images) (fun img =>
      fill_repeats all_images k (images ++ [img]))
  end.

Definition select_images (all_images : list string) (slides_needed : Z)
    (test_mode : bool) : Rand G (list string) :=
  if (length all_images =? 0)%nat then rand_ret []
  else if test_mode then
    let images := Py.slice_to all_images slides_needed in
    rand_ret images
  else
    let images := all_images in
    let remaining := slides_needed - Z.of_nat (length images) in
    if remaining >? 0
    then fill_repeats all_images (Z.to_nat remaining) images
    else rand_ret images.

End Selector.

(** ** The collaborators of the orchestrator *)

(** The modules [slideshow.py] calls into, as interfaces over an abstract
    state [W] of the outside world (file system and media tools).
    Discovery and queries read the world; merging, rendering, combining
    and deleting may change it and report success as a Python truth value. *)

Class OsMod (W : Type) : Type := {
  os_path_exists : W -> string -> bool;
  os_path_join : string -> string -> string;
  os_remove : W -> string -> W;            (* under [try: ... except: pass] *)
  glob_glob : W -> string -> list string
}.

Class AudioMod (W : Type) : Type := {
  find_audio_files : W -> string -> list string;
  get_total_audio_duration : W -> list string -> float;
  merge_audio : W -> list string -> string -> bool * W;
  combine_video_audio : W -> string -> string -> string -> bool * W
}.

Class VideoMod (W : Type) : Type := {
  create_slideshow : W -> list string -> string -> float -> float -> bool * W
}.

(** Invocations of collaborators, in the order they happen. *)
Inductive call : Type :=
| CallPrintFfmpegCapabilities
| CallFindAudioFiles (directory : string)
| CallGetTotalAudioDuration (audio_files : list string)
| CallGlob (pattern : string)
| CallMergeAudio (audio_files : list string) (output : string)
| CallCreateSlideshow (images : list string) (output : string)
    (min_duration max_duration : float)
| CallCombineVideoAudio (video audio output : string)
| CallOsRemove (path : string).

Definition is_merge (c : call) : bool :=
  match c with CallMergeAudio _ _ => true | _ => false end.

Definition is_render (c : call) : bool :=
  match c with CallCreateSlideshow _ _ _ _ => true | _ => false end.

Definition is_combine (c : call) : bool :=
  match c with CallCombineVideoAudio _ _ _ => true | _ => false end.

Definition is_discovery (c : call) : bool :=
  match c with
  | CallFindAudioFiles _ | CallGetTotalAudioDuration _ | CallGlob _ => true
  | _ => false
  end.

(** The [return] sites of [create_slideshow_with_audio], named after the
    diagnostic printed just before each. *)
Inductive outcome : Type :=
| DirectoryNotFound          (* "Directory not found: ..." *)
| NoAudioFilesFound          (* "No audio files found!" *)
| DryRunComplete             (* "Dry run complete ..." *)
| AudioProcessingFailed      (* "Audio processing failed!" *)
| SlideshowCreationFailed    (* "Slideshow creation failed!" *)
| FinalCombinationFailed     (* "Final combination failed!" *)
| Success.                   (* "SUCCESS!" *)


(** ** The orchestrator's monad: world, generator and call log *)

Record state (W G : Type) : Type := mkState {
  world : W;
  rng : G;
  calls : list call
}.

Arguments mkState {W G}.
Arguments world {W G}.
Arguments rng {W G}.
Arguments calls {W G}.

Definition M (W G A : Type) : Type := state W G -> result A * state W G.

Definition ret {W G A} (a : A) : M W G A := fun s => (Ret a, s).

Definition bind {W G A B} (m : M W G A) (k : A -> M W G B) : M W G B :=
  fun s =>
    match m s with
    | (Ret a, s') => k a s'
    | (Raise e, s') => (Raise e, s')
    end.

Declare Scope py_scope.
Delimit Scope py_scope with py.
Notation "x <- m ;; k" := (bind m (fun x => k))
  (at level 100, m at next level, right associativity) : py_scope.
Notation "m ;;; k" := (bind m (fun _ => k))
  (at level 100, right associativity) : py_scope.

(** A pure computation that may raise. *)
Definition lift_result {W G A} (r : result A) : M W G A := fun s => (r, s).

(** A computation on the generator alone. *)
Definition lift_rand {W G A} (m : Rand G A) : M W G A :=
  fun s =>
    let (r, g') := m (rng s) in
    (r, mkState (world s) g' (calls s)).

(** Reading the world, without a collaborator call. *)
Definition observe {W G A} (f : W -> A) : M W G A :=
  fun s => (Ret (f (world s)), s).

(** A logged query: the world is read, not changed. *)
Definition query {W G A} (c : call) (f : W -> A) : M W G A :=
  fun s => (Ret (f (world s)), mkState (world s) (rng s) (calls s ++ [c])).

(** A logged action: the world may change. *)
Definition action {W G A} (c : call) (f : W -> A * W) : M W G A :=
  fun s =>
    let (a, w') := f (world s) in
    (Ret a, mkState w' (rng s) (calls s ++ [c])).

(** ** [find_images] *)

(** [sorted] on paths: insertion into lexicographic (code point) order. *)
Fixpoint insert_sorted (x : string) (l : list string) : list string :=
  match l with
  | [] => [x]
  | y :: t => if String.leb x y then x :: l else y :: insert_sorted x t
  end.

Definition sorted (l : list string) : list string :=
  fold_right insert_sorted [] l.

Section Orchestrator.

Context {cfg : Config} {W G : Type}.
Context {R : Random G} {O : OsMod W} {A : AudioMod W} {V : VideoMod W}.

Local Open Scope py_scope.

(** [for ext in IMAGE_EXTENSIONS: all_images.extend(glob.glob(pattern))] *)
Fixpoint find_images_loop (directory : string) (exts : list string)
    (all_images : list string) : M W G (list string) :=
  match exts with
  | [] => ret all_images
  | ext :: exts' =>
      let pattern := os_path_join (W := W) directory ext in
      found <- query (CallGlob pattern) (fun w => glob_glob w pattern) ;;
      find_images_loop directory exts' (all_images ++ found)
  end.

Definition find_images (directory : string) : M W G (list string) :=
  all_images <- find_images_loop directory IMAGE_EXTENSIONS [] ;;
  ret (sorted all_images).

(** ** [create_slideshow_with_audio] *)

(** The tail of [create_slideshow_with_audio], from
    [# Create slideshow with variable durations] to the final
    [return True]; both branches of the merged-audio test continue here. *)
Definition render_and_combine (images : list string)
    (min_duration max_duration : float) : M W G outcome :=
  rendered <- action
    (CallCreateSlideshow images VIDEO_OUTPUT min_duration max_duration)
    (fun w => create_slideshow w images VIDEO_OUTPUT min_duration
                max_duration) ;;
  if negb rendered then ret SlideshowCreationFailed else
  combined <- action
    (CallCombineVideoAudio VIDEO_OUTPUT AUDIO_OUTPUT FINAL_OUTPUT)
    (fun w => combine_video_audio w VIDEO_OUTPUT AUDIO_OUTPUT FINAL_OUTPUT) ;;
  if negb combined then ret FinalCombinationFailed else
  action (CallOsRemove VIDEO_OUTPUT)
    (fun w => (tt, os_remove w VIDEO_OUTPUT)) ;;;
  ret Success.

(** The middle of [create_slideshow_with_audio], [# Process audio]: the
    merge is attempted only when [image_dir/AUDIO_OUTPUT] does not exist. *)
Definition audio_step (image_dir : string)
    (audio_files images : list string) (min_duration max_duration : float)
  : M W G outcome :=
  merged_exists <- observe (fun w =>
    os_path_exists w (os_path_join (W := W) image_dir AUDIO_OUTPUT)) ;;
  if negb merged_exists then
    merged <- action (CallMergeAudio audio_files AUDIO_OUTPUT)
                (fun w => merge_audio w audio_files AUDIO_OUTPUT) ;;
    if negb merged then ret AudioProcessingFailed
    else render_and_combine images min_duration max_duration
  else
    render_and_combine images min_duration max_duration.

(** The calls made by discovery in directory [directory] once
    [audio_files] were found there. *)
Definition discovery_calls (directory : string) (audio_files : list string)
  : list call :=
  [CallFindAudioFiles directory; CallGetTotalAudioDuration audio_files]
  ++ map (fun ext => CallGlob (os_path_join (W := W) directory ext))
       IMAGE_EXTENSIONS.

(** What [find_images] returns in world [w]. *)
Definition images_in (w : W) (directory : string) : list string :=
  sorted (flat_map
            (fun ext => glob_glob w (os_path_join (W := W) directory ext))
            IMAGE_EXTENSIONS).

(** The function itself: the directory test, the dry-run branch, and the
    full run up to [# Process audio]. *)
Definition create_slideshow_with_audio (image_dir : string)
    (test_mode dry_run : bool) (min_duration max_duration : float)
  : M W G outcome :=
  dir_exists <- observe (fun w => os_path_exists w image_dir) ;;
  if negb dir_exists then ret DirectoryNotFound else
  if dry_run then
    audio_files <- query (CallFindAudioFiles image_dir)
                     (fun w => find_audio_files w image_dir) ;;
    if (length audio_files =? 0)%nat then ret NoAudioFilesFound else
    audio_duration <- query (CallGetTotalAudioDuration audio_files)
                        (fun w => get_total_audio_duration w audio_files) ;;
    all_images <- find_images image_dir ;;
    slides_needed <- lift_result
      (calculate_slides_needed audio_duration min_duration max_duration
         test_mode) ;;
    avg_duration <- lift_result (Py.truediv (min_duration + max_duration) 2) ;;
    estimated_duration <- lift_result
      (Py.mul_int_float slides_needed avg_duration) ;;
    ret DryRunComplete
  else
    query CallPrintFfmpegCapabilities (fun _ => tt) ;;;
    audio_files <- query (CallFindAudioFiles image_dir)
                     (fun w => find_audio_files w image_dir) ;;
    if (length audio_files =? 0)%nat then ret NoAudioFilesFound else
    audio_duration <- query (CallGetTotalAudioDuration audio_files)
                        (fun w => get_total_audio_duration w audio_files) ;;
    all_images <- find_images image_dir ;;
    slides_needed <- lift_result
      (calculate_slides_needed audio_duration min_duration max_duration
         test_mode) ;;
    images <- lift_rand (select_images all_images slides_needed test_mode) ;;
    audio_step image_dir audio_files images min_duration max_duration.

End Orchestrator.

(** ** A concrete environment

    A small world on which the definitions run: the file system is the
    list of existing paths, every audio file lasts 30 seconds, the tools
    always succeed, and the generator is a linear congruential counter. *)

Module Sample.

Definition W : Type := list string.
Definition G : Type := nat.

(** Glob matching with [*] as the only wildcard. *)
Fixpoint glob_match (pattern : string) : string -> bool :=
  match pattern with
  | EmptyString => fun s => match s with EmptyString => true | _ => false end
  | String c pattern' =>
      if Ascii.eqb c "*"%char then
        fix star (s : string) : bool :=
          glob_match pattern' s
          || match s with
             | EmptyString => false
             | String _ s' => star s'
             end
      else
        fun s =>
          match s with
          | String d s' => Ascii.eqb c d && glob_match pattern' s'
          | EmptyString => false
          end
  end.

Definition join (a b : string) : string := (a ++ "/" ++ b)%string.

#[export] Instance config : Config := {|
  MAX_SLIDES_LIMIT := 1000;
  AUDIO_OUTPUT := "merged_audio.m4a";
  VIDEO_OUTPUT := "slideshow_video.mp4";
  FINAL_OUTPUT := "slideshow_with_audio.mp4";
  IMAGE_EXTENSIONS := ["*.png"; "*.jpg"]%string
|}.

#[export] Instance random : Random G := {|
  randbelow g n := (g mod n, 7 * g + 3)%nat
|}.

#[export] Instance os : OsMod W := {|
  os_path_exists w p := existsb (String.eqb p) w;
  os_path_join := join;
  os_remove w p := filter (fun q => negb (String.eqb p q)) w;
  glob_glob w pattern := filter (glob_match pattern) w
|}.

#[export] Instance audio : AudioMod W := {|
  find_audio_files w d := filter (glob_match (join d "*.mp3")) w;
  get_total_audio_duration w fs :=
    fold_right (fun _ total => (30 + total)%float) 0%float fs;
  merge_audio w fs out := (true, out :: w);
  combine_video_audio w v a out := (true, out :: w)
|}.

#[export] Instance video : VideoMod W := {|
  create_slideshow w imgs out mn mx := (true, out :: w)
|}.

Definition catalog5 : list string :=
  ["a.png"; "b.png"; "c.png"; "d.png"; "e.png"]%string.

(** A directory with two pictures and one track. *)
Definition fresh_dir : W :=
  ["show"; "show/b.png"; "show/a.jpg"; "show/track.mp3"]%string.

(** The same directory after an earlier run left its merged audio. *)
Definition rerun_dir : W :=
  ("show/merged_audio.m4a" :: fresh_dir)%string.

Definition start (w : W) : state W G := mkState w 5%nat [].

(** The doubles Python reads from the literals [0.1], [0.2] and [9.3]. *)
Definition f0_1 : float := 0x1.999999999999ap-4%float.
Definition f0_2 : float := 0x1.999999999999ap-3%float.
Definition f9_3 : float := 0x1.299999999999ap+3%float.

(** A directory with a track and no picture. *)
Definition audio_only_dir : W := ["show"; "show/track.mp3"]%string.

(** The audio tools with a combiner that always reports failure. *)
Definition failing_combiner : AudioMod W := {|
  find_audio_files := find_audio_files (AudioMod := audio);
  get_total_audio_duration := get_total_audio_duration (AudioMod := audio);
  merge_audio := merge_audio (AudioMod := audio);
  combine_video_audio w v a out := (false, w)
|}.

End Sample.

(** The order of [sorted] on paths. *)
Definition string_le (a b : string) : Prop := String.leb a b = true.

(** ** Views of the call log *)

Definition is_remove (c : call) : bool :=
  match c with CallOsRemove _ => true | _ => false end.

(** Calls that only look at the world: discovery and the FFmpeg probe. *)
Definition is_preparation (c : call) : bool :=
  match c with
  | CallPrintFfmpegCapabilities => true
  | _ => is_discovery c
  end.

(** The outcomes of the delegation stages. *)
Definition is_delegation_outcome (o : outcome) : bool :=
  match o with
  | AudioProcessingFailed | SlideshowCreationFailed
  | FinalCombinationFailed | Success => true
  | _ => false
  end.

(** The outcome of the delegation stages from what merger, renderer and
    combiner reported ([merged] is [true] when no merge was needed). *)
Definition delegation_outcome (merged rendered combined : bool) : outcome :=
  if negb merged then AudioProcessingFailed
  else if negb rendered then SlideshowCreationFailed
  else if negb combined then FinalCombinationFailed
  else Success.

Section DelegationCalls.

Context {cfg : Config}.

(** The calls of the delegation stages that go with outcome [o]: the merge
    when one was needed, then the renderer, the combiner and the removal of
    the intermediate video, up to and including the stage that failed. *)
Definition delegation_calls (merge_needed : bool)
    (audio_files images : list string) (min_duration max_duration : float)
    (o : outcome) : list call :=
  (if merge_needed then [CallMergeAudio audio_files AUDIO_OUTPUT] else [])
  ++ match o with
     | SlideshowCreationFailed =>
         [CallCreateSlideshow images VIDEO_OUTPUT min_duration max_duration]
     | FinalCombinationFailed =>
         [CallCreateSlideshow images VIDEO_OUTPUT min_duration max_duration;
          CallCombineVideoAudio VIDEO_OUTPUT AUDIO_OUTPUT FINAL_OUTPUT]
     | Success =>
         [CallCreateSlideshow images VIDEO_OUTPUT min_duration max_duration;
          CallCombineVideoAudio VIDEO_OUTPUT AUDIO_OUTPUT FINAL_OUTPUT;
          CallOsRemove VIDEO_OUTPUT]
     | _ => []
     end.

End DelegationCalls.

(** * Properties *)

(** ** Python arithmetic *)

Lemma truediv_nonzero (a b : float) :
  (b =? 0)%float = false -> Py.truediv a b = Ret (a / b)%float.
Proof. intros Hb. unfold Py.truediv. now rewrite Hb. Qed.

Lemma truediv_zero (a b : float) :
  (b =? 0)%float = true -> Py.truediv a b = Raise ZeroDivisionError.
Proof. intros Hb. unfold Py.truediv. now rewrite Hb. Qed.

Lemma truediv_two (a : float) : Py.truediv a 2 = Ret (a / 2)%float.
Proof. reflexivity. Qed.

(** On non-negative rationals truncation is the floor. *)
Lemma trunc_nonneg_floor (q : Q) : (0 <= q)%Q -> Py.trunc q = Qfloor q.
Proof.
  destruct q as [n d]. unfold Qle, Py.trunc, Qfloor. simpl. intros Hn.
  apply Z.quot_div_nonneg; lia.
Qed.

Lemma int_finite (x : float) :
  Py.is_finite x = true -> Py.int x = Ret (Py.trunc (Py.to_Q x)).
Proof.
  unfold Py.is_finite, Py.int.
  destruct (Prim2SF x); (discriminate || reflexivity).
Qed.

(** On a finite non-negative float [int] is the floor of its value. *)
Lemma int_nonneg_floor (x : float) :
  Py.is_finite x = true -> (0 <= Py.to_Q x)%Q ->
  Py.int x = Ret (Qfloor (Py.to_Q x)).
Proof.
  intros Hf H0. rewrite int_finite by assumption.
  now rewrite trunc_nonneg_floor.
Qed.

Lemma digits2_pos_size (m : positive) : digits2_pos m = Pos.size m.
Proof. induction m; simpl; congruence. Qed.

(** The mantissa and exponent of a float are those of a binary64 number. *)
Lemma finite_bounds (x : float) (s : bool) (m : positive) (e : Z) :
  Prim2SF x = S754_finite s m e -> Zpos m < 2 ^ 53 /\ e <= 971.
Proof.
  intros E. pose proof (Prim2SF_valid x) as Hv. rewrite E in Hv.
  unfold valid_binary, bounded, canonical_mantissa, fexp in Hv.
  apply andb_true_iff in Hv as [Hc He].
  apply Z.eqb_eq in Hc. apply Z.leb_le in He.
  rewrite digits2_pos_size in Hc.
  change (emax - prec) with 971 in He. change prec with 53 in Hc.
  split; [|exact He].
  assert (Hsize : Zpos (Pos.size m) <= 53) by lia.
  apply Z.lt_le_trans with (2 ^ Zpos (Pos.size m)).
  - pose proof (Pos.size_gt m) as Hgt.
    rewrite <- Pos2Z.inj_pow. apply Pos2Z.pos_lt_pos. exact Hgt.
  - apply Z.pow_le_mono_r; lia.
Qed.

(** The integer part of a finite float converts back to a float. *)
Lemma trunc_fits (x : float) :
  Py.is_finite x = true -> Py.float_fits (Py.trunc (Py.to_Q x)) = true.
Proof.
  unfold Py.is_finite, Py.to_Q, Py.float_fits.
  destruct (Prim2SF x) as [s|s| |s m e] eqn:E; try discriminate; intros _.
  - reflexivity.
  - destruct (finite_bounds x s m e E) as [Hm He].
    apply Z.ltb_lt.
    assert (Hbig : 2 ^ 53 * 2 ^ 971 <= 2 ^ 1024 - 2 ^ 970 + 2 ^ 971)
      by (vm_compute; discriminate).
    assert (Hmag : Z.abs (if s then Z.neg m else Z.pos m) = Z.pos m)
      by now destruct s.
    destruct (Z.leb_spec 0 e) as [He0|He0].
    + unfold Py.trunc. simpl Qnum. simpl Qden. rewrite Z.quot_1_r.
      rewrite Z.abs_mul, Hmag, (Z.abs_eq (2 ^ e)) by (apply Z.pow_nonneg; lia).
      assert (Hpow : 2 ^ e <= 2 ^ 971) by (apply Z.pow_le_mono_r; lia).
      assert (Hpos : 0 < 2 ^ e) by (apply Z.pow_pos_nonneg; lia).
      assert (H971 : 2 ^ 971 = 2 * 2 ^ 970) by (vm_compute; reflexivity).
      nia.
    + unfold Py.trunc. simpl Qnum. simpl Qden.
      assert (Hq : Z.abs ((if s then Z.neg m else Z.pos m)
                          ÷ Z.pos (2 ^ Z.to_pos (- e))) <= Z.pos m).
      { rewrite <- Hmag at 2. rewrite <- Z.quot_abs by lia.
        rewrite Hmag. simpl Z.abs.
        apply Z.quot_le_upper_bound; [lia|]. 
        pose proof (Pos2Z.is_pos (2 ^ Z.to_pos (- e))). nia. }
      assert (H53 : 2 ^ 53 < 2 ^ 1024 - 2 ^ 970) by (vm_compute; reflexivity).
      lia.
Qed.

Lemma fits_min (a b : Z) :
  Py.float_fits a = true -> Py.float_fits b = true ->
  Py.float_fits (Z.min a b) = true.
Proof.
  unfold Py.float_fits. intros Ha Hb.
  destruct (Z.min_spec a b) as [[_ ->]|[_ ->]]; assumption.
Qed.

(** ** The planner *)

Section PlannerFacts.

Context {cfg : Config}.

(** Full mode in closed form. *)
Lemma full_mode_closed_form (audio mn mx : float) :
  (average mn mx =? 0)%float = false ->
  Py.is_finite (quotient audio mn mx false) = true ->
  Py.float_fits MAX_SLIDES_LIMIT = true ->
  calculate_slides_needed audio mn mx false
  = Ret (Z.min (Py.trunc (Py.to_Q (quotient audio mn mx false)))
           MAX_SLIDES_LIMIT).
Proof.
  unfold quotient, average. intros Havg Hfin Hcap.
  unfold calculate_slides_needed.
  rewrite truediv_two. simpl result_bind.
  rewrite (truediv_nonzero _ _ Havg). simpl result_bind.
  rewrite (int_finite _ Hfin). simpl result_bind.
  set (n := Py.trunc (Py.to_Q (audio / ((mn + mx) / 2)))).
  replace (if n >? MAX_SLIDES_LIMIT then MAX_SLIDES_LIMIT else n)
    with (Z.min n MAX_SLIDES_LIMIT)
    by (destruct (Z.gtb_spec n MAX_SLIDES_LIMIT); lia).
  unfold Py.mul_int_float.
  rewrite fits_min; [reflexivity| |assumption].
  apply trunc_fits, Hfin.
Qed.

(** Whatever Full mode returns is bounded by the cap. *)
Lemma full_mode_capped (audio mn mx : float) (n : Z) :
  calculate_slides_needed audio mn mx false = Ret n ->
  n <= MAX_SLIDES_LIMIT.
Proof.
  unfold calculate_slides_needed. rewrite truediv_two. simpl result_bind.
  destruct (Py.truediv audio ((mn + mx) / 2)) as [q|e]; simpl;
    [|discriminate].
  destruct (Py.int q) as [k|e]; simpl; [|discriminate].
  destruct (Py.mul_int_float _ _); simpl; [|discriminate].
  intros E. injection E as <-.
  destruct (Z.gtb_spec k MAX_SLIDES_LIMIT); lia.
Qed.

(** Test mode in closed form. *)
Lemma test_mode_closed_form (audio mn mx : float) :
  (average mn mx =? 0)%float = false ->
  Py.is_finite (quotient audio mn mx true) = true ->
  calculate_slides_needed audio mn mx true
  = Ret (Py.trunc (Py.to_Q (quotient audio mn mx true))).
Proof.
  unfold quotient, average. intros Havg Hfin.
  unfold calculate_slides_needed.
  rewrite truediv_two. simpl result_bind.
  rewrite (truediv_nonzero _ _ Havg). simpl result_bind.
  now rewrite (int_finite _ Hfin).
Qed.

(** A count the planner returns converts back to a float. *)
Lemma planner_result_fits (audio mn mx : float) (test_mode : bool) (n : Z) :
  calculate_slides_needed audio mn mx test_mode = Ret n ->
  Py.float_fits n = true.
Proof.
  unfold calculate_slides_needed. rewrite truediv_two.
  destruct test_mode; simpl result_bind.
  - destruct (Py.truediv 60 ((mn + mx) / 2)) as [q|e]; simpl;
      [|discriminate].
    unfold Py.int.
    destruct (Prim2SF q) eqn:E; simpl; try discriminate;
      intros [= <-]; apply trunc_fits; unfold Py.is_finite; now rewrite E.
  - destruct (Py.truediv audio ((mn + mx) / 2)) as [q|e]; simpl;
      [|discriminate].
    destruct (Py.int q) as [k|e]; simpl; [|discriminate].
    unfold Py.mul_int_float.
    destruct (Py.float_fits (if k >? MAX_SLIDES_LIMIT
                             then MAX_SLIDES_LIMIT else k)) eqn:F;
      simpl; [|discriminate].
    now intros [= <-].
Qed.

(** The planner returns whenever the average is not zero, the quotient is
    finite and the cap converts to a float. *)
Lemma planner_returns (audio mn mx : float) (test_mode : bool) :
  (average mn mx =? 0)%float = false ->
  Py.is_finite (quotient audio mn mx test_mode) = true ->
  Py.float_fits MAX_SLIDES_LIMIT = true ->
  exists n, calculate_slides_needed audio mn mx test_mode = Ret n.
Proof.
  intros Havg Hfin Hcap. destruct test_mode; eexists.
  - now apply test_mode_closed_form.
  - now apply full_mode_closed_form.
Qed.

Lemma planner_zero_average (audio mn mx : float) (test_mode : bool) :
  (average mn mx =? 0)%float = true ->
  calculate_slides_needed audio mn mx test_mode = Raise ZeroDivisionError.
Proof.
  unfold average. intros Havg.
  unfold calculate_slides_needed. rewrite truediv_two.
  simpl result_bind.
  destruct test_mode; now rewrite (truediv_zero _ _ Havg).
Qed.

(** C1 (as the code has it): in Full mode, when the binary64 average is
    not zero, the binary64 quotient [audio / average] is finite and not
    negative, and the cap converts to a float, the planner returns the
    floor of that rounded quotient, clamped to [MAX_SLIDES_LIMIT]; and no
    Full-mode input at all makes it return more than the cap. *)
Theorem full_mode_floor_clamped :
  (forall audio mn mx : float,
      (average mn mx =? 0)%float = false ->
      Py.is_finite (quotient audio mn mx false) = true ->
      (0 <= Py.to_Q (quotient audio mn mx false))%Q ->
      Py.float_fits MAX_SLIDES_LIMIT = true ->
      calculate_slides_needed audio mn mx false
      = Ret (Z.min (Qfloor (Py.to_Q (quotient audio mn mx false)))
               MAX_SLIDES_LIMIT))
  /\ (forall (audio mn mx : float) (n : Z),
      calculate_slides_needed audio mn mx false = Ret n ->
      n <= MAX_SLIDES_LIMIT).
Proof.
  split.
  - intros audio mn mx Havg Hfin H0 Hcap.
    rewrite full_mode_closed_form by assumption.
    now rewrite trunc_nonneg_floor.
  - exact full_mode_capped.
Qed.

(** C5 (as the code has it): in Test mode, when the binary64 average is
    not zero and the binary64 quotient [60 / average] is finite and not
    negative, the planner returns the floor of that rounded quotient,
    whatever the audio duration and whatever the cap; two calls that
    differ only in the audio duration return the same result. *)
Theorem test_mode_ignores_audio :
  (forall audio mn mx : float,
      (average mn mx =? 0)%float = false ->
      Py.is_finite (quotient audio mn mx true) = true ->
      (0 <= Py.to_Q (quotient audio mn mx true))%Q ->
      calculate_slides_needed audio mn mx true
      = Ret (Qfloor (Py.to_Q (quotient audio mn mx true))))
  /\ (forall audio audio' mn mx : float,
      calculate_slides_needed audio mn mx true
      = calculate_slides_needed audio' mn mx true).
Proof.
  split.
  - intros audio mn mx Havg Hfin H0.
    rewrite test_mode_closed_form by assumption.
    now rewrite trunc_nonneg_floor.
  - reflexivity.
Qed.

(** C8 (as the code has it): when the average of the range is zero, in
    particular for [min = max = 0], the planner does perform the
    division and aborts with Python's [ZeroDivisionError], in Test and
    in Full mode alike; no slide count is returned. *)
Theorem zero_average_raises_zero_division
    (audio mn mx : float) (test_mode : bool) :
  (average mn mx =? 0)%float = true ->
  calculate_slides_needed audio mn mx test_mode = Raise ZeroDivisionError.
Proof.
  unfold average. intros Havg.
  unfold calculate_slides_needed. rewrite truediv_two.
  simpl result_bind.
  destruct test_mode; now rewrite (truediv_zero _ _ Havg).
Qed.

End PlannerFacts.

(** Scenario A: range (3,7), Full mode, 100 s of audio: 20 slides. *)
Example scenario_A :
  calculate_slides_needed (cfg := Sample.config) 100 3 7 false = Ret 20.
Proof. reflexivity. Qed.

(** Scenario B: 100000 s of audio with cap 1000: clamped to 1000. *)
Example scenario_B :
  calculate_slides_needed (cfg := Sample.config) 100000 3 7 false = Ret 1000.
Proof. reflexivity. Qed.

(** Scenario C: Test mode, range (2,4): 20 slides for any audio. *)
Example scenario_C :
  calculate_slides_needed (cfg := Sample.config) 12345 2 4 true = Ret 20.
Proof. reflexivity. Qed.

(** Test mode is not capped: a quarter-second range asks for 240 slides
    even under a cap of 100. *)
Example test_mode_uncapped :
  calculate_slides_needed
    (cfg := {| MAX_SLIDES_LIMIT := 100; AUDIO_OUTPUT := ""; VIDEO_OUTPUT := "";
               FINAL_OUTPUT := ""; IMAGE_EXTENSIONS := [] |})
    0 0.25 0.25 true = Ret 240.
Proof. reflexivity. Qed.

(** [int] truncates toward zero, so below zero it is not the floor. *)
Example full_mode_negative_audio :
  calculate_slides_needed (cfg := Sample.config) (-1) 3 7 false = Ret 0
  /\ Qfloor (Py.to_Q (quotient (-1) 3 7 false)) = -1.
Proof. split; reflexivity. Qed.

(** The other ways the planner can fail: an audio duration that is not a
    finite number, and a positive range whose average underflows to zero. *)
Example planner_infinite_audio :
  calculate_slides_needed (cfg := Sample.config) infinity 3 7 false
  = Raise OverflowError.
Proof. reflexivity. Qed.

Example planner_nan_audio :
  calculate_slides_needed (cfg := Sample.config) nan 3 7 false
  = Raise ValueError.
Proof. reflexivity. Qed.

Example planner_underflowed_average :
  calculate_slides_needed (cfg := Sample.config) 100 0x1p-1074 0 true
  = Raise ZeroDivisionError.
Proof. reflexivity. Qed.

(** Under a cap too large in magnitude to be a float the last estimate of
    Full mode cannot be computed. *)
Example planner_cap_out_of_range :
  calculate_slides_needed
    (cfg := {| MAX_SLIDES_LIMIT := - 2 ^ 1024; AUDIO_OUTPUT := "";
               VIDEO_OUTPUT := ""; FINAL_OUTPUT := "";
               IMAGE_EXTENSIONS := [] |})
    100 3 7 false = Raise OverflowError.
Proof. reflexivity. Qed.

(** C1, as stated, fails: for 9.3 s of audio and the range (0.1, 0.2) the
    rounded quotient is just below 62 and the planner returns 61, while
    the floor of the exact quotient is 62, both on the doubles Python
    reads from these literals and on the decimal numbers themselves. *)
Lemma full_mode_floor_not_exact :
  calculate_slides_needed (cfg := Sample.config)
    Sample.f9_3 Sample.f0_1 Sample.f0_2 false = Ret 61
  /\ Z.min (Qfloor (Py.to_Q Sample.f9_3
                    / ((Py.to_Q Sample.f0_1 + Py.to_Q Sample.f0_2) / 2)))
       1000 = 62
  /\ Z.min (Qfloor ((93 # 10) / (((1 # 10) + (2 # 10)) / 2))) 1000 = 62.
Proof. repeat split; vm_compute; reflexivity. Qed.

Lemma full_mode_floor_clamped_witness :
  calculate_slides_needed (cfg := Sample.config) 100 3 7 false
  = Ret (Z.min (Qfloor (Py.to_Q (quotient 100 3 7 false))) 1000).
Proof.
  apply (proj1 (full_mode_floor_clamped (cfg := Sample.config))
           100%float 3%float 7%float).
  - reflexivity.
  - reflexivity.
  - vm_compute. discriminate.
  - reflexivity.
Defined.

(** C5, as stated, fails: for the range (0.1, 0.1) the planner returns 600
    in Test mode, while the floor of the exact quotient of 60 by the
    average of the two doubles is 599; and for the range (0.1, 0.2) it
    returns 399, while the decimal numbers give 400. *)
Lemma test_mode_floor_not_exact :
  calculate_slides_needed (cfg := Sample.config)
    0 Sample.f0_1 Sample.f0_1 true = Ret 600
  /\ Qfloor (60 / ((Py.to_Q Sample.f0_1 + Py.to_Q Sample.f0_1) / 2)) = 599
  /\ calculate_slides_needed (cfg := Sample.config)
       0 Sample.f0_1 Sample.f0_2 true = Ret 399
  /\ Qfloor (60 / (((1 # 10) + (2 # 10)) / 2)) = 400.
Proof. repeat split; vm_compute; reflexivity. Qed.

Lemma test_mode_ignores_audio_witness :
  calculate_slides_needed (cfg := Sample.config) 100 2 4 true
  = Ret (Qfloor (Py.to_Q (quotient 100 2 4 true))).
Proof.
  apply (proj1 (test_mode_ignores_audio (cfg := Sample.config))
           100%float 2%float 4%float).
  - reflexivity.
  - reflexivity.
  - vm_compute. discriminate.
Defined.

(** C8, as stated, fails: for [min = max = 0] the planner raises
    [ZeroDivisionError], not [InvalidDurationRange], in both modes. *)
Lemma zero_range_not_invalid_duration_range :
  ~ (forall test_mode : bool,
        calculate_slides_needed (cfg := Sample.config) 100 0 0 test_mode
        = Raise InvalidDurationRange).
Proof. intros Hc. specialize (Hc true). discriminate Hc. Qed.

Lemma zero_average_raises_zero_division_witness :
  calculate_slides_needed (cfg := Sample.config) 100 0 0 false
  = Raise ZeroDivisionError.
Proof.
  apply (zero_average_raises_zero_division (cfg := Sample.config)
           100%float 0%float 0%float false).
  reflexivity.
Defined.

(** ** The selector *)

Section SelectorFacts.

Context {G : Type} {R : Random G}.

Lemma slice_to_nonneg {A} (l : list A) (n : Z) :
  0 <= n -> Py.slice_to l n = firstn (Z.to_nat n) l.
Proof.
  intros Hn. unfold Py.slice_to.
  destruct (Z.ltb_spec n 0); [lia|reflexivity].
Qed.

Lemma select_images_empty (n : Z) (test_mode : bool) (g : G) :
  select_images [] n test_mode g = (Ret [], g).
Proof. reflexivity. Qed.

Lemma select_images_cons (x : string) (l : list string) (n : Z)
    (test_mode : bool) :
  select_images (x :: l) n test_mode
  = if test_mode then rand_ret (Py.slice_to (x :: l) n)
    else if n - Z.of_nat (length (x :: l)) >? 0
         then fill_repeats (x :: l) (Z.to_nat (n - Z.of_nat (length (x :: l))))
                (x :: l)
         else rand_ret (x :: l).
Proof. reflexivity. Qed.

(** Test mode is the slice, and the generator is left alone. *)
Lemma select_test_spec (all_images : list string) (n : Z) (g : G) :
  0 <= n ->
  select_images all_images n true g
  = (Ret (firstn (Z.to_nat n) all_images), g).
Proof.
  intros Hn. destruct all_images as [|x l].
  - rewrite select_images_empty. now rewrite firstn_nil.
  - rewrite select_images_cons. unfold rand_ret.
    now rewrite slice_to_nonneg.
Qed.

(** Full mode without repeats: the catalog itself, generator untouched. *)
Lemma select_full_no_repeats (all_images : list string) (n : Z) (g : G) :
  n <= Z.of_nat (length all_images) ->
  select_images all_images n false g = (Ret all_images, g).
Proof.
  intros Hn. destruct all_images as [|x l]; [reflexivity|].
  rewrite select_images_cons.
  destruct (Z.gtb_spec (n - Z.of_nat (length (x :: l))) 0); [lia|].
  reflexivity.
Qed.

Section Lawful.

Hypothesis Hrange : randbelow_in_range.

(** A draw from a non-empty sequence succeeds and yields a member. *)
Lemma random_choice_in (seq : list string) (g : G) :
  seq <> [] ->
  exists img g', random_choice seq g = (Ret img, g') /\ In img seq.
Proof.
  intros Hne. destruct seq as [|x l]; [contradiction|].
  unfold random_choice.
  pose proof (Hrange g (length (x :: l))) as Hlt.
  destruct (randbelow g (length (x :: l))) as [i g'] eqn:E.
  simpl fst in Hlt.
  destruct (nth_error (x :: l) i) as [img|] eqn:Enth.
  - exists img, g'. split; [reflexivity|].
    eapply nth_error_In; eassumption.
  - apply nth_error_None in Enth. simpl in Hlt, Enth. lia.
Qed.

(** The repeat loop appends exactly [remaining] members of the catalog. *)
Lemma fill_repeats_spec (all_images : list string) :
  all_images <> [] ->
  forall (remaining : nat) (images : list string) (g : G),
  exists extra g',
    fill_repeats all_images remaining images g = (Ret (images ++ extra), g')
    /\ length extra = remaining
    /\ Forall (fun img => In img all_images) extra.
Proof.
  intros Hne. induction remaining as [|k IH]; intros images g.
  - exists [], g. rewrite app_nil_r. repeat split. constructor.
  - destruct (random_choice_in all_images g Hne) as (img & g1 & E & Hin).
    destruct (IH (images ++ [img]) g1) as (extra & g' & E' & Hlen & Hall).
    exists (img :: extra), g'. simpl. unfold rand_bind. rewrite E, E'.
    rewrite <- app_assoc. simpl. repeat split.
    + now rewrite Hlen.
    + now constructor.
Qed.

(** Full mode: the catalog followed by the repeats that are missing. *)
Lemma select_full_spec (all_images : list string) (n : Z) (g : G) :
  all_images <> [] ->
  exists extra g',
    select_images all_images n false g = (Ret (all_images ++ extra), g')
    /\ length extra = Z.to_nat (n - Z.of_nat (length all_images))
    /\ Forall (fun img => In img all_images) extra.
Proof.
  intros Hne. destruct all_images as [|x l]; [contradiction|].
  rewrite select_images_cons.
  destruct (Z.gtb_spec (n - Z.of_nat (length (x :: l))) 0) as [Hpos|Hle].
  - apply fill_repeats_spec. assumption.
  - exists [], g. rewrite app_nil_r. unfold rand_ret. repeat split.
    + simpl length in *. lia.
    + constructor.
Qed.

End Lawful.

End SelectorFacts.

Section SelectorClaims.

Context {G : Type} {R : Random G}.

(** C7: on an empty catalog selection returns the empty sequence, for
    every slide count and in both modes (and draws nothing). *)
Theorem empty_catalog_selects_nothing
    (slides_needed : Z) (test_mode : bool) (g : G) :
  select_images [] slides_needed test_mode g = (Ret [], g).
Proof. apply select_images_empty. Qed.

(** C6: in Test mode, for every catalog and every non-negative slide
    count, selection returns the first [min(slideCount, len(catalog))]
    entries of the catalog, in catalog order, and leaves the generator
    untouched. *)
Theorem test_mode_selects_prefix
    (catalog : list string) (slides_needed : Z) (g : G) :
  0 <= slides_needed ->
  exists images,
    select_images catalog slides_needed true g = (Ret images, g)
    /\ Z.of_nat (length images)
       = Z.min slides_needed (Z.of_nat (length catalog))
    /\ images = firstn (length images) catalog
    /\ exists rest, catalog = images ++ rest.
Proof.
  intros Hn. exists (firstn (Z.to_nat slides_needed) catalog).
  split; [now apply select_test_spec|].
  rewrite length_firstn. repeat split.
  - lia.
  - destruct (Nat.min_spec (Z.to_nat slides_needed) (length catalog))
      as [[Hlt ->]|[Hge ->]]; [reflexivity|].
    rewrite firstn_all. now apply firstn_all2.
  - exists (skipn (Z.to_nat slides_needed) catalog).
    symmetry. apply firstn_skipn.
Qed.

(** C4: in Full mode, for a non-empty catalog and a slide count that
    does not exceed the catalog size, selection appends no repeats and
    returns exactly the whole catalog; it never truncates it. *)
Theorem full_mode_never_truncates
    (catalog : list string) (slides_needed : Z) (g : G) :
  catalog <> [] ->
  slides_needed <= Z.of_nat (length catalog) ->
  select_images catalog slides_needed false g = (Ret catalog, g).
Proof. intros _. apply select_full_no_repeats. Qed.

(** C3: in Full mode, for a non-empty catalog and a slide count of at
    least the catalog size, selection returns exactly [slideCount]
    entries; the first [len(catalog)] of them are the catalog in catalog
    order, so every catalog entry occurs, and each of the remaining
    entries is a member of the catalog. *)
Theorem full_mode_covers_then_repeats
    (catalog : list string) (slides_needed : Z) (g : G) :
  randbelow_in_range ->
  catalog <> [] ->
  Z.of_nat (length catalog) <= slides_needed ->
  exists images g',
    select_images catalog slides_needed false g = (Ret images, g')
    /\ Z.of_nat (length images) = slides_needed
    /\ firstn (length catalog) images = catalog
    /\ (forall img, In img catalog -> In img images)
    /\ (forall img, In img (skipn (length catalog) images) -> In img catalog).
Proof.
  intros Hrange Hne Hn.
  destruct (select_full_spec Hrange catalog slides_needed g Hne)
    as (extra & g' & E & Hlen & Hall).
  exists (catalog ++ extra), g'. split; [exact E|]. repeat split.
  - rewrite length_app, Hlen. lia.
  - rewrite firstn_app, Nat.sub_diag, firstn_all. simpl.
    apply app_nil_r.
  - intros img Hin. apply in_or_app. now left.
  - intros img. rewrite skipn_app, Nat.sub_diag, skipn_all. simpl.
    rewrite Forall_forall in Hall. apply Hall.
Qed.

(** C2 (as the code has it): for a non-empty catalog, Full-mode
    selection returns [max(slideCount, len(catalog))] entries and
    Test-mode selection with a non-negative slide count returns
    [min(slideCount, len(catalog))] entries.  So the length is the
    planned slide count in Full mode when [slideCount >= len(catalog)]
    and in Test mode when [0 <= slideCount <= len(catalog)]. *)
Theorem selection_length
    (catalog : list string) (slides_needed : Z) (g : G) :
  randbelow_in_range ->
  catalog <> [] ->
  (exists images g',
      select_images catalog slides_needed false g = (Ret images, g')
      /\ Z.of_nat (length images)
         = Z.max slides_needed (Z.of_nat (length catalog)))
  /\ (0 <= slides_needed ->
      exists images g',
        select_images catalog slides_needed true g = (Ret images, g')
        /\ Z.of_nat (length images)
           = Z.min slides_needed (Z.of_nat (length catalog))).
Proof.
  intros Hrange Hne. split.
  - destruct (select_full_spec Hrange catalog slides_needed g Hne)
      as (extra & g' & E & Hlen & _).
    exists (catalog ++ extra), g'. split; [exact E|].
    rewrite length_app, Hlen. lia.
  - intros Hn. exists (firstn (Z.to_nat slides_needed) catalog), g.
    split; [now apply select_test_spec|].
    rewrite length_firstn. lia.
Qed.

End SelectorClaims.

Section SelectorRuns.

Import Sample.

Lemma sample_randbelow_in_range : randbelow_in_range (G := Sample.G).
Proof.
intros g n Hn. simpl. apply Nat.mod_upper_bound. lia.
Qed.

(** Scenario D: five images, Full mode, five slides: the catalog itself. *)
Example scenario_D :
select_images Sample.catalog5 5 false 5%nat = (Ret Sample.catalog5, 5%nat).
Proof. reflexivity. Qed.

(** Scenario E: five images, Full mode, eight slides: the catalog and
  three repeats. *)
Example scenario_E :
fst (select_images Sample.catalog5 8 false 5%nat)
= Ret (Sample.catalog5 ++ ["a.png"; "d.png"; "e.png"]%string).
Proof. reflexivity. Qed.

Lemma test_mode_selects_prefix_witness :
exists images,
  select_images Sample.catalog5 3 true 5%nat = (Ret images, 5%nat)
  /\ Z.of_nat (length images) = Z.min 3 (Z.of_nat (length Sample.catalog5))
  /\ images = firstn (length images) Sample.catalog5
  /\ exists rest, Sample.catalog5 = images ++ rest.
Proof.
apply (test_mode_selects_prefix Sample.catalog5 3 5%nat). lia.
Defined.

Lemma full_mode_never_truncates_witness :
select_images Sample.catalog5 2 false 5%nat = (Ret Sample.catalog5, 5%nat).
Proof.
apply (full_mode_never_truncates Sample.catalog5 2 5%nat).
- discriminate.
- simpl. lia.
Defined.

Lemma full_mode_covers_then_repeats_witness :
exists images g',
  select_images Sample.catalog5 8 false 5%nat = (Ret images, g')
  /\ Z.of_nat (length images) = 8
  /\ firstn (length Sample.catalog5) images = Sample.catalog5
  /\ (forall img, In img Sample.catalog5 -> In img images)
  /\ (forall img, In img (skipn (length Sample.catalog5) images) ->
                  In img Sample.catalog5).
Proof.
apply (full_mode_covers_then_repeats Sample.catalog5 8 5%nat).
- exact sample_randbelow_in_range.
- discriminate.
- simpl. lia.
Defined.

(** C2, as stated, fails: a catalog of five images with two planned
  slides yields five entries in Full mode, and a catalog of five images
  with eight planned slides yields five entries in Test mode. *)
Lemma selection_length_not_always_plan :
(exists images g',
    select_images Sample.catalog5 2 false 5%nat = (Ret images, g')
    /\ Z.of_nat (length images) <> 2)
/\ (exists images g',
    select_images Sample.catalog5 8 true 5%nat = (Ret images, g')
    /\ Z.of_nat (length images) <> 8).
Proof.
split; exists Sample.catalog5, 5%nat; split;
  solve [reflexivity | discriminate].
Qed.

Lemma selection_length_witness :
(exists images g',
    select_images Sample.catalog5 8 false 5%nat = (Ret images, g')
    /\ Z.of_nat (length images)
       = Z.max 8 (Z.of_nat (length Sample.catalog5)))
/\ (0 <= 8 ->
    exists images g',
      select_images Sample.catalog5 8 true 5%nat = (Ret images, g')
      /\ Z.of_nat (length images)
         = Z.min 8 (Z.of_nat (length Sample.catalog5))).
Proof.
apply (selection_length Sample.catalog5 8 5%nat).
- exact sample_randbelow_in_range.
- discriminate.
Defined.

End SelectorRuns.

(** ** The orchestrator *)

Section OrchestratorFacts.

Context {cfg : Config} {W G : Type}.
Context {R : Random G} {O : OsMod W} {A : AudioMod W} {V : VideoMod W}.

Lemma state_eta (s : state W G) : mkState (world s) (rng s) (calls s) = s.
Proof. now destruct s. Qed.



(** The glob loop reads the world once per extension and changes
    nothing but the call log. *)
Lemma find_images_loop_spec (d : string) (exts acc : list string)
    (s : state W G) :
  find_images_loop d exts acc s
  = (Ret (acc ++ flat_map
                   (fun ext => glob_glob (world s) (os_path_join (W := W) d ext))
                   exts),
     mkState (world s) (rng s)
       (calls s ++ map (fun ext => CallGlob (os_path_join (W := W) d ext)) exts)).
Proof.
  revert acc s. induction exts as [|e t IH]; intros acc s.
  - simpl. unfold ret. now rewrite !app_nil_r, state_eta.
  - simpl. unfold bind, query. rewrite IH. simpl.
    now rewrite <- !app_assoc.
Qed.

Lemma find_images_spec (d : string) (s : state W G) :
  find_images d s
  = (Ret (images_in (world s) d),
     mkState (world s) (rng s)
       (calls s ++ map (fun ext => CallGlob (os_path_join (W := W) d ext))
                     IMAGE_EXTENSIONS)).
Proof.
  unfold find_images, bind. rewrite find_images_loop_spec. reflexivity.
Qed.

(** The tail always starts by invoking the renderer on the selected
    images; it never merges audio, and it combines with [AUDIO_OUTPUT]. *)
Lemma render_and_combine_spec (images : list string) (mn mx : float)
    (s : state W G) :
  exists o tail w',
    render_and_combine images mn mx s
    = (Ret o,
       mkState w' (rng s)
         (calls s ++ CallCreateSlideshow images VIDEO_OUTPUT mn mx :: tail))
    /\ existsb is_merge tail = false
    /\ (forall v a out, In (CallCombineVideoAudio v a out) tail ->
                        a = AUDIO_OUTPUT)
    /\ (o = SlideshowCreationFailed \/ o = FinalCombinationFailed
        \/ o = Success).
Proof.
  unfold render_and_combine, bind, action, ret. simpl.
  destruct (create_slideshow (world s) images VIDEO_OUTPUT mn mx)
    as [rendered w1].
  destruct rendered; simpl.
  - destruct (combine_video_audio w1 VIDEO_OUTPUT AUDIO_OUTPUT FINAL_OUTPUT)
      as [combined w2].
    destruct combined; simpl.
    + exists Success,
        [CallCombineVideoAudio VIDEO_OUTPUT AUDIO_OUTPUT FINAL_OUTPUT;
         CallOsRemove VIDEO_OUTPUT], (os_remove w2 VIDEO_OUTPUT).
      rewrite <- !app_assoc. simpl. repeat split; auto.
      intros v a out [E|[E|[]]]; congruence.
    + exists FinalCombinationFailed,
        [CallCombineVideoAudio VIDEO_OUTPUT AUDIO_OUTPUT FINAL_OUTPUT], w2.
      rewrite <- !app_assoc. simpl. repeat split; auto.
      intros v a out [E|[]]; congruence.
  - exists SlideshowCreationFailed, [], w1. repeat split; auto.
    intros v a out [].
Qed.


(** A dry run, step by step. *)
Lemma dry_run_unfold (d : string) (test_mode : bool) (mn mx : float)
    (s : state W G) :
  create_slideshow_with_audio d test_mode true mn mx s
  = if negb (os_path_exists (world s) d) then (Ret DirectoryNotFound, s)
    else
      let audio_files := find_audio_files (world s) d in
      if (length audio_files =? 0)%nat
      then (Ret NoAudioFilesFound,
            mkState (world s) (rng s) (calls s ++ [CallFindAudioFiles d]))
      else
        let s1 := mkState (world s) (rng s)
                    (calls s ++ discovery_calls d audio_files) in
        match calculate_slides_needed
                (get_total_audio_duration (world s) audio_files) mn mx
                test_mode with
        | Ret _ => (Ret DryRunComplete, s1)
        | Raise e => (Raise e, s1)
        end.
Proof.
  unfold create_slideshow_with_audio, bind, observe, query, lift_result, ret.
  destruct (os_path_exists (world s) d); simpl; [|reflexivity].
  destruct (length (find_audio_files (world s) d) =? 0)%nat; [reflexivity|].
  rewrite find_images_spec. simpl.
  unfold discovery_calls. rewrite <- !app_assoc. simpl.
  destruct (calculate_slides_needed _ mn mx test_mode) as [n|e] eqn:Eplan;
    [|reflexivity].
  unfold Py.mul_int_float.
  now rewrite (planner_result_fits _ _ _ _ _ Eplan).
Qed.

(** A full run, step by step, up to the merged-audio test. *)
Lemma full_run_unfold (d : string) (test_mode : bool) (mn mx : float)
    (s : state W G) :
  create_slideshow_with_audio d test_mode false mn mx s
  = if negb (os_path_exists (world s) d) then (Ret DirectoryNotFound, s)
    else
      let audio_files := find_audio_files (world s) d in
      if (length audio_files =? 0)%nat
      then (Ret NoAudioFilesFound,
            mkState (world s) (rng s)
              (calls s ++ [CallPrintFfmpegCapabilities; CallFindAudioFiles d]))
      else
        let log := calls s ++ CallPrintFfmpegCapabilities
                             :: discovery_calls d audio_files in
        match calculate_slides_needed
                (get_total_audio_duration (world s) audio_files) mn mx
                test_mode with
        | Raise e => (Raise e, mkState (world s) (rng s) log)
        | Ret n =>
            match select_images (images_in (world s) d) n test_mode (rng s)
            with
            | (Raise e, g') => (Raise e, mkState (world s) g' log)
            | (Ret images, g') =>
                audio_step d audio_files images mn mx
                  (mkState (world s) g' log)
            end
        end.
Proof.
  unfold create_slideshow_with_audio, bind, observe, query, lift_result,
    lift_rand, ret.
  destruct (os_path_exists (world s) d); simpl; [|reflexivity].
  destruct (length (find_audio_files (world s) d) =? 0)%nat.
  { now rewrite <- app_assoc. }
  rewrite find_images_spec. simpl.
  unfold discovery_calls. rewrite <- !app_assoc. simpl.
  destruct (calculate_slides_needed _ mn mx test_mode) as [n|e];
    [|reflexivity].
  destruct (select_images _ n test_mode (rng s)) as [[images|e] g'];
    reflexivity.
Qed.

(** The tail as a table of what renderer and combiner report. *)
Lemma render_and_combine_table (fs images : list string) (mn mx : float)
    (s : state W G) :
  let rr := create_slideshow (world s) images VIDEO_OUTPUT mn mx in
  let cr := combine_video_audio (snd rr) VIDEO_OUTPUT AUDIO_OUTPUT
              FINAL_OUTPUT in
  render_and_combine images mn mx s
  = (Ret (delegation_outcome true (fst rr) (fst cr)),
     mkState
       (if negb (fst rr) then snd rr
        else if negb (fst cr) then snd cr
        else os_remove (snd cr) VIDEO_OUTPUT)
       (rng s)
       (calls s
        ++ delegation_calls false fs images mn mx
             (delegation_outcome true (fst rr) (fst cr)))).
Proof.
  unfold render_and_combine, bind, action, ret, delegation_outcome. simpl.
  destruct (create_slideshow (world s) images VIDEO_OUTPUT mn mx)
    as [rendered w1].
  destruct rendered; simpl; [|reflexivity].
  destruct (combine_video_audio w1 VIDEO_OUTPUT AUDIO_OUTPUT FINAL_OUTPUT)
    as [combined w2].
  destruct combined; simpl; now rewrite <- !app_assoc.
Qed.

(** The audio step as a table of what merger, renderer and combiner
    report. *)
Lemma audio_step_table (d : string) (fs images : list string) (mn mx : float)
    (s : state W G) :
  let need := negb (os_path_exists (world s)
                      (os_path_join (W := W) d AUDIO_OUTPUT)) in
  let mr := if need then merge_audio (world s) fs AUDIO_OUTPUT
            else (true, world s) in
  let rr := create_slideshow (snd mr) images VIDEO_OUTPUT mn mx in
  let cr := combine_video_audio (snd rr) VIDEO_OUTPUT AUDIO_OUTPUT
              FINAL_OUTPUT in
  audio_step d fs images mn mx s
  = (Ret (delegation_outcome (fst mr) (fst rr) (fst cr)),
     mkState
       (if negb (fst mr) then snd mr
        else if negb (fst rr) then snd rr
        else if negb (fst cr) then snd cr
        else os_remove (snd cr) VIDEO_OUTPUT)
       (rng s)
       (calls s
        ++ delegation_calls need fs images mn mx
             (delegation_outcome (fst mr) (fst rr) (fst cr)))).
Proof.
  unfold audio_step, bind, observe, action, ret. simpl.
  destruct (os_path_exists (world s) (os_path_join (W := W) d AUDIO_OUTPUT));
    simpl.
  - apply (render_and_combine_table fs).
  - destruct (merge_audio (world s) fs AUDIO_OUTPUT) as [merged w1].
    destruct merged; simpl; [|reflexivity].
    rewrite (render_and_combine_table fs). simpl.
    now rewrite <- !app_assoc.
Qed.

(** A full run that gets as far as the audio step, as a table. *)
Lemma full_run_table
    (image_dir : string) (test_mode : bool) (mn mx : float) (s : state W G)
    (n : Z) (images : list string) (g' : G) :
  os_path_exists (world s) image_dir = true ->
  find_audio_files (world s) image_dir <> [] ->
  calculate_slides_needed
    (get_total_audio_duration (world s)
       (find_audio_files (world s) image_dir)) mn mx test_mode = Ret n ->
  select_images (images_in (world s) image_dir) n test_mode (rng s)
  = (Ret images, g') ->
  let fs := find_audio_files (world s) image_dir in
  let need := negb (os_path_exists (world s)
                      (os_path_join (W := W) image_dir AUDIO_OUTPUT)) in
  let mr := if need then merge_audio (world s) fs AUDIO_OUTPUT
            else (true, world s) in
  let rr := create_slideshow (snd mr) images VIDEO_OUTPUT mn mx in
  let cr := combine_video_audio (snd rr) VIDEO_OUTPUT AUDIO_OUTPUT
              FINAL_OUTPUT in
  create_slideshow_with_audio image_dir test_mode false mn mx s
  = (Ret (delegation_outcome (fst mr) (fst rr) (fst cr)),
     mkState
       (if negb (fst mr) then snd mr
        else if negb (fst rr) then snd rr
        else if negb (fst cr) then snd cr
        else os_remove (snd cr) VIDEO_OUTPUT)
       g'
       (calls s
        ++ CallPrintFfmpegCapabilities
           :: discovery_calls image_dir fs
        ++ delegation_calls need fs images mn mx
             (delegation_outcome (fst mr) (fst rr) (fst cr)))).
Proof.
  intros Hdir Hfiles Hplan Hsel fs. subst fs.
  rewrite full_run_unfold, Hdir. simpl.
  destruct (find_audio_files (world s) image_dir) as [|f fs] eqn:Efs;
    [contradiction|].
  simpl. rewrite Hplan, Hsel.
  rewrite audio_step_table. simpl. now rewrite <- app_assoc.
Qed.

Lemma delegation_outcome_is_delegation (m r c : bool) :
  is_delegation_outcome (delegation_outcome m r c) = true.
Proof. now destruct m, r, c. Qed.



End OrchestratorFacts.

Section OrchestratorRuns.

Import Sample.

(** A dry run of the sample directory: four discovery calls, success. *)
Example dry_run_sample :
  create_slideshow_with_audio "show" false true 3 7 (start fresh_dir)
  = (Ret DryRunComplete,
     mkState fresh_dir 5%nat
       [CallFindAudioFiles "show";
        CallGetTotalAudioDuration ["show/track.mp3"%string];
        CallGlob "show/*.png"; CallGlob "show/*.jpg"]).
Proof. reflexivity. Qed.

(** A first full run merges the audio; a later one does not. *)
Example first_run_merges :
  existsb is_merge
    (calls (snd (create_slideshow_with_audio "show" false false 3 7
                   (start fresh_dir)))) = true.
Proof. reflexivity. Qed.

Example rerun_sample :
  calls (snd (create_slideshow_with_audio "show" true false 3 7
                (start rerun_dir)))
  = [CallPrintFfmpegCapabilities; CallFindAudioFiles "show";
     CallGetTotalAudioDuration ["show/track.mp3"%string];
     CallGlob "show/*.png"; CallGlob "show/*.jpg";
     CallCreateSlideshow ["show/a.jpg"; "show/b.png"]%string
       "slideshow_video.mp4" 3 7;
     CallCombineVideoAudio "slideshow_video.mp4" "merged_audio.m4a"
       "slideshow_with_audio.mp4";
     CallOsRemove "slideshow_video.mp4"].
Proof. reflexivity. Qed.

(** With a zero range even a dry run of an existing directory with audio
    ends in [ZeroDivisionError]: the planner must have a count to return. *)
Example dry_run_zero_range :
  fst (create_slideshow_with_audio "show" false true 0 0 (start fresh_dir))
  = Raise ZeroDivisionError.
Proof. reflexivity. Qed.




End OrchestratorRuns.

(** * Further properties *)

(** ** More on the selector *)

Section SelectorMore.

Context {G : Type} {R : Random G}.

Lemma in_firstn {A} (k : nat) (l : list A) (a : A) :
  In a (firstn k l) -> In a l.
Proof.
  intros Hin. rewrite <- (firstn_skipn k l). apply in_or_app. now left.
Qed.

(** Test mode below zero: the slice drops entries from the end. *)
Lemma select_test_negative (x : string) (l : list string) (n : Z) (g : G) :
  n < 0 ->
  select_images (x :: l) n true g
  = (Ret (firstn (Z.to_nat (Z.of_nat (length (x :: l)) + n)) (x :: l)), g).
Proof.
  intros Hn. rewrite select_images_cons. unfold rand_ret, Py.slice_to.
  destruct (Z.ltb_spec n 0); [|lia].
  do 2 f_equal. f_equal. lia.
Qed.

(** X4: whatever the slide count (negative ones included) and the mode,
    selection returns, and every image it returns is an image of the
    catalog. *)
Theorem selection_stays_in_catalog
    (catalog : list string) (slides_needed : Z) (test_mode : bool) (g : G) :
  randbelow_in_range ->
  exists images g',
    select_images catalog slides_needed test_mode g = (Ret images, g')
    /\ forall img, In img images -> In img catalog.
Proof.
  intros Hrange. destruct catalog as [|x l].
  { exists [], g. split; [reflexivity|]. intros img []. }
  destruct test_mode.
  - exists (Py.slice_to (x :: l) slides_needed), g. split; [reflexivity|].
    intros img. unfold Py.slice_to.
    destruct (slides_needed <? 0); apply in_firstn.
  - destruct (select_full_spec Hrange (x :: l) slides_needed g)
      as (extra & g' & E & _ & Hall); [discriminate|].
    exists ((x :: l) ++ extra), g'. split; [exact E|].
    intros img Hin. apply in_app_or in Hin as [Hin|Hin]; [assumption|].
    rewrite Forall_forall in Hall. now apply Hall.
Qed.

(** X5: in Test mode a negative slide count [-k] is a Python slice from the
    end: selection drops the last [k] entries of the catalog (all of them
    when [k >= len(catalog)]), so [max(0, len(catalog) - k)] entries are
    left; the generator is not used. *)
Theorem test_mode_negative_count_drops_tail
    (catalog : list string) (slides_needed : Z) (g : G) :
  slides_needed < 0 ->
  exists images,
    select_images catalog slides_needed true g = (Ret images, g)
    /\ Z.of_nat (length images)
       = Z.max 0 (Z.of_nat (length catalog) + slides_needed)
    /\ exists dropped,
         catalog = images ++ dropped
         /\ Z.of_nat (length dropped)
            = Z.min (- slides_needed) (Z.of_nat (length catalog)).
Proof.
  intros Hn. destruct catalog as [|x l].
  { exists []. split; [reflexivity|]. split; [simpl; lia|].
    exists []. split; [reflexivity|]. simpl. lia. }
  set (k := Z.to_nat (Z.of_nat (length (x :: l)) + slides_needed)).
  exists (firstn k (x :: l)). split; [now apply select_test_negative|].
  split.
  - rewrite length_firstn. unfold k. lia.
  - exists (skipn k (x :: l)). split.
    + symmetry. apply firstn_skipn.
    + rewrite length_skipn. unfold k. lia.
Qed.

End SelectorMore.

Section PipelineMore.

Context {cfg : Config} {G : Type} {R : Random G}.

(** X6: planning followed by selection in Full mode, when the planner's
    binary64 quotient is finite and not negative (average not zero, cap
    convertible to a float) and the catalog is not empty, yields exactly
    [max(len(catalog), min(floor(quotient), cap))] images: never fewer
    than the catalog, and never more than the larger of the catalog size
    and the cap. *)
Theorem full_mode_pipeline_count
    (audio mn mx : float) (catalog : list string) (g : G) :
  randbelow_in_range ->
  (average mn mx =? 0)%float = false ->
  Py.is_finite (quotient audio mn mx false) = true ->
  (0 <= Py.to_Q (quotient audio mn mx false))%Q ->
  Py.float_fits MAX_SLIDES_LIMIT = true ->
  catalog <> [] ->
  exists n images g',
    calculate_slides_needed audio mn mx false = Ret n
    /\ select_images catalog n false g = (Ret images, g')
    /\ Z.of_nat (length images)
       = Z.max (Z.of_nat (length catalog))
           (Z.min (Qfloor (Py.to_Q (quotient audio mn mx false)))
              MAX_SLIDES_LIMIT)
    /\ Z.of_nat (length catalog) <= Z.of_nat (length images)
    /\ Z.of_nat (length images)
       <= Z.max (Z.of_nat (length catalog)) MAX_SLIDES_LIMIT.
Proof.
  intros Hrange Havg Hfin H0 Hcap Hne.
  set (n := Z.min (Qfloor (Py.to_Q (quotient audio mn mx false)))
              MAX_SLIDES_LIMIT).
  destruct (select_full_spec Hrange catalog n g Hne)
    as (extra & g' & E & Hlen & _).
  exists n, (catalog ++ extra), g'. split; [|split; [exact E|]].
  - rewrite full_mode_closed_form by assumption.
    now rewrite trunc_nonneg_floor.
  - rewrite length_app, Hlen. unfold n. lia.
Qed.

End PipelineMore.

(** ** [find_images] and [sorted] *)

Lemma insert_sorted_perm (x : string) (l : list string) :
  Permutation (x :: l) (insert_sorted x l).
Proof.
  induction l as [|y t IH]; simpl; [reflexivity|].
  destruct (String.leb x y); [reflexivity|].
  rewrite perm_swap. now constructor.
Qed.

Lemma insert_sorted_hd (x y : string) (l : list string) :
  string_le y x -> HdRel string_le y l -> HdRel string_le y (insert_sorted x l).
Proof.
  intros Hyx Hl. destruct l as [|z t]; simpl.
  - now constructor.
  - destruct (String.leb x z); constructor; [assumption|].
    now inversion Hl.
Qed.

Lemma insert_sorted_sorted (x : string) (l : list string) :
  Sorted string_le l -> Sorted string_le (insert_sorted x l).
Proof.
  induction 1 as [|y t Ht IH Hhd]; simpl.
  - repeat constructor.
  - destruct (String.leb x y) eqn:E.
    + constructor; [now constructor|]. now constructor.
    + constructor; [assumption|].
      apply insert_sorted_hd; [|assumption].
      destruct (String.leb_total x y) as [H|H]; [congruence|exact H].
Qed.

Lemma sorted_perm (l : list string) : Permutation l (sorted l).
Proof.
  induction l as [|x t IH]; simpl; [reflexivity|].
  rewrite <- insert_sorted_perm. now constructor.
Qed.

Lemma sorted_sorted (l : list string) : Sorted string_le (sorted l).
Proof.
  induction l as [|x t IH]; simpl; [constructor|].
  now apply insert_sorted_sorted.
Qed.

Section FindImagesMore.

Context {cfg : Config} {W G : Type}.
Context {R : Random G} {O : OsMod W} {A : AudioMod W} {V : VideoMod W}.

(** X7: [find_images] globs once per configured extension, in the order of
    [IMAGE_EXTENSIONS], and changes neither world nor generator; the
    catalog it returns is in ascending lexicographic order across all
    extensions and holds exactly the paths the globs matched, each as often
    as it was matched (a path matched by two patterns is listed twice). *)
Theorem find_images_sorted_union (directory : string) (s : state W G) :
  exists images,
    find_images directory s
    = (Ret images,
       mkState (world s) (rng s)
         (calls s
          ++ map (fun ext => CallGlob (os_path_join (W := W) directory ext))
               IMAGE_EXTENSIONS))
    /\ Sorted string_le images
    /\ Permutation
         (flat_map
            (fun ext => glob_glob (world s)
                          (os_path_join (W := W) directory ext))
            IMAGE_EXTENSIONS)
         images.
Proof.
  exists (images_in (world s) directory).
  split; [apply find_images_spec|]. split.
  - apply sorted_sorted.
  - apply sorted_perm.
Qed.

End FindImagesMore.

(** ** More on the orchestrator *)

Section OrchestratorMore.

Context {cfg : Config} {W G : Type}.
Context {R : Random G} {O : OsMod W} {A : AudioMod W} {V : VideoMod W}.

Lemma discovery_calls_are_preparation (d : string) (fs : list string) :
  forallb is_preparation (discovery_calls d fs) = true.
Proof.
  unfold discovery_calls. simpl.
  induction IMAGE_EXTENSIONS as [|e t IH]; [reflexivity|exact IH].
Qed.

Lemma preparation_is_not_delegation (l : list call) :
  forallb is_preparation l = true ->
  existsb is_merge l = false /\ existsb is_render l = false
  /\ existsb is_combine l = false /\ existsb is_remove l = false.
Proof.
  induction l as [|c t IH]; simpl; [auto|].
  intros Hc. apply andb_true_iff in Hc as [Hc Ht].
  destruct (IH Ht) as (-> & -> & -> & ->).
  destruct c; simpl in *; try discriminate; auto.
Qed.

Lemma delegation_calls_shape (need : bool) (fs images : list string)
    (mn mx : float) (m r c : bool) :
  (need = false -> m = true) ->
  delegation_calls need fs images mn mx (delegation_outcome m r c)
  = (if need then [CallMergeAudio fs AUDIO_OUTPUT] else [])
    ++ (if negb m then []
        else CallCreateSlideshow images VIDEO_OUTPUT mn mx
             :: (if negb r then []
                 else CallCombineVideoAudio VIDEO_OUTPUT AUDIO_OUTPUT
                        FINAL_OUTPUT
                      :: (if negb c then []
                          else [CallOsRemove VIDEO_OUTPUT]))).
Proof. intros Hm. unfold delegation_calls, delegation_outcome.
  now destruct m, r, c. Qed.

(** Every run is of one of two shapes: it stops before the delegation
    stages, having only looked at the world; or it gets through
    discovery, planning and selection and enters them. *)
Lemma run_shape (d : string) (test_mode dry_run : bool) (mn mx : float)
    (s : state W G) :
  (exists r s' new,
      create_slideshow_with_audio d test_mode dry_run mn mx s = (r, s')
      /\ calls s' = calls s ++ new
      /\ (forall o, r = Ret o -> is_delegation_outcome o = false)
      /\ world s' = world s
      /\ forallb is_preparation new = true)
  \/ (exists n images g',
        dry_run = false
        /\ os_path_exists (world s) d = true
        /\ find_audio_files (world s) d <> []
        /\ calculate_slides_needed
             (get_total_audio_duration (world s)
                (find_audio_files (world s) d)) mn mx test_mode = Ret n
        /\ select_images (images_in (world s) d) n test_mode (rng s)
           = (Ret images, g')).
Proof.
  destruct dry_run.
  - left. rewrite dry_run_unfold.
    destruct (os_path_exists (world s) d); simpl.
    2:{ exists (Ret DirectoryNotFound), s, []. rewrite app_nil_r.
        repeat split. intros o [= <-]. reflexivity. }
    destruct (find_audio_files (world s) d) as [|f fs]; simpl.
    { eexists _, _, _. split; [reflexivity|]. split; [reflexivity|].
      repeat split. intros o [= <-]. reflexivity. }
    destruct (calculate_slides_needed _ mn mx test_mode) as [n|e];
      (eexists _, _, _; split; [reflexivity|]; split; [reflexivity|];
       split; [|split; [reflexivity|apply discovery_calls_are_preparation]]).
    + intros o [= <-]. reflexivity.
    + intros o [=].
  - destruct (os_path_exists (world s) d) eqn:Hdir.
    2:{ left. rewrite full_run_unfold, Hdir. simpl.
        exists (Ret DirectoryNotFound), s, []. rewrite app_nil_r.
        repeat split. intros o [= <-]. reflexivity. }
    destruct (find_audio_files (world s) d) as [|f fs] eqn:Efs.
    { left. rewrite full_run_unfold, Hdir, Efs. simpl.
      eexists _, _, _. split; [reflexivity|]. split; [reflexivity|].
      repeat split. intros o [= <-]. reflexivity. }
    assert (Hpre : forallb is_preparation
              (CallPrintFfmpegCapabilities :: discovery_calls d (f :: fs))
            = true)
      by exact (discovery_calls_are_preparation d (f :: fs)).
    destruct (calculate_slides_needed
                (get_total_audio_duration (world s) (f :: fs)) mn mx
                test_mode) as [n|e] eqn:Eplan.
    2:{ left. rewrite full_run_unfold, Hdir, Efs. simpl. rewrite Eplan.
        eexists _, _, _. split; [reflexivity|]. split; [reflexivity|].
        split; [intros o [=]|]. split; [reflexivity|exact Hpre]. }
    destruct (select_images (images_in (world s) d) n test_mode (rng s))
      as [[images|e] g'] eqn:Esel.
    2:{ left. rewrite full_run_unfold, Hdir, Efs. simpl.
        rewrite Eplan, Esel.
        eexists _, _, _. split; [reflexivity|]. split; [reflexivity|].
        split; [intros o [=]|]. split; [reflexivity|exact Hpre]. }
    right. exists n, images, g'. repeat split; auto. discriminate.
Qed.

(** A full run that gets as far as the audio step, with its calls. *)
Lemma full_run_delegation
    (image_dir : string) (test_mode : bool) (mn mx : float) (s : state W G)
    (n : Z) (images : list string) (g' : G) :
  os_path_exists (world s) image_dir = true ->
  find_audio_files (world s) image_dir <> [] ->
  calculate_slides_needed
    (get_total_audio_duration (world s)
       (find_audio_files (world s) image_dir)) mn mx test_mode = Ret n ->
  select_images (images_in (world s) image_dir) n test_mode (rng s)
  = (Ret images, g') ->
  exists o w',
    create_slideshow_with_audio image_dir test_mode false mn mx s
    = (Ret o,
       mkState w' g'
         (calls s
          ++ CallPrintFfmpegCapabilities
             :: discovery_calls image_dir
                  (find_audio_files (world s) image_dir)
          ++ delegation_calls
               (negb (os_path_exists (world s)
                        (os_path_join (W := W) image_dir AUDIO_OUTPUT)))
               (find_audio_files (world s) image_dir) images mn mx o))
    /\ is_delegation_outcome o = true.
Proof.
  intros Hdir Hfiles Hplan Hsel.
  rewrite (full_run_table image_dir test_mode mn mx s n images g'
             Hdir Hfiles Hplan Hsel).
  eexists _, _. split; [reflexivity|].
  apply delegation_outcome_is_delegation.
Qed.

(** X8: a full run that gets through discovery, planning and selection
    calls, after the FFmpeg probe and discovery, the merger (only when
    [image_dir/AUDIO_OUTPUT] is missing), the renderer on the selected
    images in the world the merger left, the combiner in the world the
    renderer left, and [os.remove(VIDEO_OUTPUT)], in this order.  It
    stops after the first of them that reports failure: a merger that
    reports failure gives "Audio processing failed!" and no renderer
    call, a renderer that reports failure gives "Slideshow creation
    failed!" and no combiner call, a combiner that reports failure gives
    "Final combination failed!" and no removal, and only when all report
    success does the run remove the video and succeed.  The world it
    leaves is the one the last stage called left. *)
Theorem delegation_stages_in_order
    (image_dir : string) (test_mode : bool) (mn mx : float) (s : state W G)
    (n : Z) (images : list string) (g' : G) :
  os_path_exists (world s) image_dir = true ->
  find_audio_files (world s) image_dir <> [] ->
  calculate_slides_needed
    (get_total_audio_duration (world s)
       (find_audio_files (world s) image_dir)) mn mx test_mode = Ret n ->
  select_images (images_in (world s) image_dir) n test_mode (rng s)
  = (Ret images, g') ->
  let fs := find_audio_files (world s) image_dir in
  let need := negb (os_path_exists (world s)
                      (os_path_join (W := W) image_dir AUDIO_OUTPUT)) in
  let mr := if need then merge_audio (world s) fs AUDIO_OUTPUT
            else (true, world s) in
  let rr := create_slideshow (snd mr) images VIDEO_OUTPUT mn mx in
  let cr := combine_video_audio (snd rr) VIDEO_OUTPUT AUDIO_OUTPUT
              FINAL_OUTPUT in
  create_slideshow_with_audio image_dir test_mode false mn mx s
  = (Ret (if negb (fst mr) then AudioProcessingFailed
          else if negb (fst rr) then SlideshowCreationFailed
          else if negb (fst cr) then FinalCombinationFailed
          else Success),
     mkState
       (if negb (fst mr) then snd mr
        else if negb (fst rr) then snd rr
        else if negb (fst cr) then snd cr
        else os_remove (snd cr) VIDEO_OUTPUT)
       g'
       (calls s
        ++ CallPrintFfmpegCapabilities
           :: discovery_calls image_dir fs
        ++ (if need then [CallMergeAudio fs AUDIO_OUTPUT] else [])
        ++ (if negb (fst mr) then []
            else CallCreateSlideshow images VIDEO_OUTPUT mn mx
                 :: (if negb (fst rr) then []
                     else CallCombineVideoAudio VIDEO_OUTPUT AUDIO_OUTPUT
                            FINAL_OUTPUT
                          :: (if negb (fst cr) then []
                              else [CallOsRemove VIDEO_OUTPUT]))))).
Proof.
  intros Hdir Hfiles Hplan Hsel fs need mr rr cr.
  rewrite (full_run_table image_dir test_mode mn mx s n images g'
             Hdir Hfiles Hplan Hsel).
  fold fs need mr rr cr.
  rewrite delegation_calls_shape; [reflexivity|].
  unfold mr. now intros ->.
Qed.

(** X9: when [image_dir/AUDIO_OUTPUT] is missing, a full run that gets
    through discovery, planning and selection calls
    [merge_audio(audio_files, AUDIO_OUTPUT)] first; if the merger reports
    failure the run ends there with "Audio processing failed!", with no
    renderer, combiner or removal call, and otherwise it goes on to the
    renderer. *)
Theorem missing_merged_audio_is_merged_first
    (image_dir : string) (test_mode : bool) (mn mx : float) (s : state W G)
    (n : Z) (images : list string) (g' : G) :
  os_path_exists (world s) image_dir = true ->
  find_audio_files (world s) image_dir <> [] ->
  calculate_slides_needed
    (get_total_audio_duration (world s)
       (find_audio_files (world s) image_dir)) mn mx test_mode = Ret n ->
  select_images (images_in (world s) image_dir) n test_mode (rng s)
  = (Ret images, g') ->
  os_path_exists (world s) (os_path_join (W := W) image_dir AUDIO_OUTPUT)
  = false ->
  let audio_files := find_audio_files (world s) image_dir in
  exists o w' rest,
    create_slideshow_with_audio image_dir test_mode false mn mx s
    = (Ret o,
       mkState w' g'
         (calls s
          ++ CallPrintFfmpegCapabilities
             :: discovery_calls image_dir audio_files
          ++ CallMergeAudio audio_files AUDIO_OUTPUT :: rest))
    /\ (fst (merge_audio (world s) audio_files AUDIO_OUTPUT) = false ->
        o = AudioProcessingFailed /\ rest = []
        /\ w' = snd (merge_audio (world s) audio_files AUDIO_OUTPUT))
    /\ (fst (merge_audio (world s) audio_files AUDIO_OUTPUT) = true ->
        exists rest',
          rest = CallCreateSlideshow images VIDEO_OUTPUT mn mx :: rest').
Proof.
  intros Hdir Hfiles Hplan Hsel Hmissing audio_files. subst audio_files.
  rewrite full_run_unfold, Hdir. simpl.
  destruct (find_audio_files (world s) image_dir) as [|f fs] eqn:Efs;
    [contradiction|].
  simpl. rewrite Hplan, Hsel.
  unfold audio_step, bind, observe, action, ret. simpl. rewrite Hmissing.
  simpl.
  destruct (merge_audio (world s) (f :: fs) AUDIO_OUTPUT) as [merged w1].
  destruct merged; simpl.
  - destruct (render_and_combine_spec images mn mx
                (mkState w1 g'
                   ((calls s ++ CallPrintFfmpegCapabilities
                             :: discovery_calls image_dir (f :: fs))
                    ++ [CallMergeAudio (f :: fs) AUDIO_OUTPUT])))
      as (o & tail & w' & E & _).
    simpl in E. rewrite E. eexists o, w', _.
    rewrite <- !app_assoc. simpl. split; [reflexivity|].
    split; [discriminate|]. intros _. eexists. reflexivity.
  - exists AudioProcessingFailed, w1, []. rewrite <- !app_assoc. simpl.
    split; [reflexivity|]. split; [auto|discriminate].
Qed.

(** X10: in every run whatsoever, [os.remove] is called on nothing but
    [VIDEO_OUTPUT], and it is called exactly when the run ends in success,
    once, as its last call.  A run ends in success only when the merger
    (if one was needed), the renderer and the combiner all reported
    success; when the combiner reports failure the run ends with "Final
    combination failed!", removes nothing, and leaves the world as the
    combiner left it. *)
Theorem cleanup_only_on_success
    (image_dir : string) (test_mode dry_run : bool) (mn mx : float)
    (s : state W G) :
  exists r s' new,
    create_slideshow_with_audio image_dir test_mode dry_run mn mx s = (r, s')
    /\ calls s' = calls s ++ new
    /\ (forall p, In (CallOsRemove p) new ->
                  p = VIDEO_OUTPUT /\ r = Ret Success)
    /\ (r = Ret Success ->
        exists before,
          new = before ++ [CallOsRemove VIDEO_OUTPUT]
          /\ existsb is_remove before = false)
    /\ (forall o, r = Ret o -> is_delegation_outcome o = true ->
        exists n images g',
          calculate_slides_needed
            (get_total_audio_duration (world s)
               (find_audio_files (world s) image_dir)) mn mx test_mode
          = Ret n
          /\ select_images (images_in (world s) image_dir) n test_mode
               (rng s) = (Ret images, g')
          /\ let fs := find_audio_files (world s) image_dir in
             let need := negb (os_path_exists (world s)
                                 (os_path_join (W := W) image_dir
                                    AUDIO_OUTPUT)) in
             let mr := if need then merge_audio (world s) fs AUDIO_OUTPUT
                       else (true, world s) in
             let rr := create_slideshow (snd mr) images VIDEO_OUTPUT mn mx in
             let cr := combine_video_audio (snd rr) VIDEO_OUTPUT AUDIO_OUTPUT
                         FINAL_OUTPUT in
             (o = Success <->
              fst mr = true /\ fst rr = true /\ fst cr = true)
             /\ (o = FinalCombinationFailed <->
                 fst mr = true /\ fst rr = true /\ fst cr = false)
             /\ (o = FinalCombinationFailed -> world s' = snd cr)
             /\ (o = Success -> world s' = os_remove (snd cr) VIDEO_OUTPUT)).
Proof.
  destruct (run_shape image_dir test_mode dry_run mn mx s)
    as [(r & s' & new & E & Hlog & Hout & _ & Hprep)|
        (n & images & g' & -> & Hdir & Hfiles & Hplan & Hsel)].
  - exists r, s', new. split; [exact E|]. split; [exact Hlog|].
    destruct (preparation_is_not_delegation new Hprep) as (_ & _ & _ & Hrm).
    split; [|split].
    + intros p Hin. exfalso.
      assert (Hex : existsb is_remove new = true)
        by (apply existsb_exists; exists (CallOsRemove p); auto).
      congruence.
    + intros Hr. specialize (Hout Success Hr). discriminate.
    + intros o Hr Ho. specialize (Hout o Hr). congruence.
  - pose proof (full_run_table image_dir test_mode mn mx s n images g'
                  Hdir Hfiles Hplan Hsel) as E.
    cbv zeta in E. cbv zeta.
    set (fs := find_audio_files (world s) image_dir) in *.
    set (need := negb (os_path_exists (world s)
                         (os_path_join (W := W) image_dir AUDIO_OUTPUT)))
      in *.
    set (mr := if need then merge_audio (world s) fs AUDIO_OUTPUT
               else (true, world s)) in *.
    set (rr := create_slideshow (snd mr) images VIDEO_OUTPUT mn mx) in *.
    set (cr := combine_video_audio (snd rr) VIDEO_OUTPUT AUDIO_OUTPUT
                 FINAL_OUTPUT) in *.
    assert (Hm : need = false -> fst mr = true)
      by (unfold mr; now intros ->).
    rewrite delegation_calls_shape in E by exact Hm.
    assert (Hpre : existsb is_remove (discovery_calls image_dir fs) = false).
    { apply (preparation_is_not_delegation (discovery_calls image_dir fs)).
      exact (discovery_calls_are_preparation image_dir fs). }
    eexists _, _, _. split; [exact E|]. cbn [calls].
    split; [reflexivity|].
    unfold delegation_outcome.
    split; [|split].
    + intros p Hin. apply in_inv in Hin as [Hin|Hin]; [discriminate|].
      apply in_app_or in Hin as [Hin|Hin].
      { exfalso.
        assert (Hex : existsb is_remove (discovery_calls image_dir fs) = true)
          by (apply existsb_exists; exists (CallOsRemove p); auto).
        congruence. }
      apply in_app_or in Hin as [Hin|Hin].
      { destruct need; simpl in Hin; [destruct Hin as [Hin|[]]|destruct Hin];
          discriminate. }
      destruct (fst mr), (fst rr), (fst cr); simpl in Hin;
        repeat (destruct Hin as [Hin|Hin]; try discriminate Hin);
        try contradiction.
      injection Hin as <-. auto.
    + intros Hr.
      destruct (fst mr), (fst rr), (fst cr); simpl in Hr; try discriminate.
      exists (CallPrintFfmpegCapabilities
              :: discovery_calls image_dir fs
              ++ (if need then [CallMergeAudio fs AUDIO_OUTPUT] else [])
              ++ [CallCreateSlideshow images VIDEO_OUTPUT mn mx;
                  CallCombineVideoAudio VIDEO_OUTPUT AUDIO_OUTPUT
                    FINAL_OUTPUT]).
      split.
      * cbn [negb]. rewrite <- app_comm_cons, <- !app_assoc. reflexivity.
      * cbn [existsb is_remove orb].
        rewrite !existsb_app, Hpre. now destruct need.
    + intros o [= <-] _. exists n, images, g'.
      split; [exact Hplan|]. split; [exact Hsel|]. simpl world.
      change (create_slideshow (snd mr) images VIDEO_OUTPUT mn mx) with rr.
      change (combine_video_audio (snd rr) VIDEO_OUTPUT AUDIO_OUTPUT
                FINAL_OUTPUT) with cr.
      destruct (fst mr), (fst rr), (fst cr); cbn [negb];
        intuition (try reflexivity; try discriminate).
Qed.

(** X11: a run that does not end at one of the delegation stages (it ends
    with "Directory not found", "No audio files found!", the dry-run
    report, or an exception) has called neither merger, renderer, combiner
    nor [os.remove], and leaves the world as it found it; every dry run is
    of this kind. *)
Theorem no_delegation_no_trace
    (image_dir : string) (test_mode dry_run : bool) (mn mx : float)
    (s : state W G) :
  exists r s' new,
    create_slideshow_with_audio image_dir test_mode dry_run mn mx s = (r, s')
    /\ calls s' = calls s ++ new
    /\ ((forall o, r = Ret o -> is_delegation_outcome o = false) ->
        world s' = world s
        /\ existsb is_merge new = false /\ existsb is_render new = false
        /\ existsb is_combine new = false /\ existsb is_remove new = false)
    /\ (dry_run = true ->
        forall o, r = Ret o -> is_delegation_outcome o = false).
Proof.
  destruct (run_shape image_dir test_mode dry_run mn mx s)
    as [(r & s' & new & E & Hlog & Hout & Hw & Hprep)|
        (n & images & g' & Hdry & Hdir & Hfiles & Hplan & Hsel)].
  - exists r, s', new. split; [exact E|]. split; [exact Hlog|].
    split; [|intros _; exact Hout].
    intros _. split; [exact Hw|].
    now apply preparation_is_not_delegation.
  - destruct (full_run_delegation image_dir test_mode mn mx s n images g'
                Hdir Hfiles Hplan Hsel) as (o & w' & E & Ho).
    subst dry_run. eexists _, _, _. split; [exact E|]. simpl calls.
    split; [reflexivity|]. split.
    + intros Hout. specialize (Hout o eq_refl). congruence.
    + discriminate.
Qed.

(** X12: with a range whose average is zero, a run on an existing
    directory that holds audio, dry or not, ends in [ZeroDivisionError]
    right after discovery: the audio files, their total duration and the
    images have been looked up, nothing has been merged, rendered or
    combined, and world and generator are as before. *)
Theorem zero_range_run_raises_after_discovery
    (image_dir : string) (test_mode dry_run : bool) (mn mx : float)
    (s : state W G) :
  (average mn mx =? 0)%float = true ->
  os_path_exists (world s) image_dir = true ->
  find_audio_files (world s) image_dir <> [] ->
  create_slideshow_with_audio image_dir test_mode dry_run mn mx s
  = (Raise ZeroDivisionError,
     mkState (world s) (rng s)
       (calls s
        ++ (if dry_run then [] else [CallPrintFfmpegCapabilities])
        ++ discovery_calls image_dir (find_audio_files (world s) image_dir))).
Proof.
  intros Havg Hdir Hfiles. destruct dry_run.
  - rewrite dry_run_unfold, Hdir. simpl.
    destruct (find_audio_files (world s) image_dir) as [|f fs];
      [contradiction|].
    simpl. now rewrite planner_zero_average.
  - rewrite full_run_unfold, Hdir. simpl.
    destruct (find_audio_files (world s) image_dir) as [|f fs];
      [contradiction|].
    simpl. now rewrite planner_zero_average.
Qed.

(** X13: a full run in Test mode over an existing directory with audio,
    when the binary64 quotient [60 / average] is finite and not negative
    (average not zero), hands the delegation stages the first
    [floor(quotient)] images of the sorted catalog (all of them when there
    are fewer), whatever the audio lasts, and does not touch the random
    generator. *)
Theorem test_run_renders_first_images
    (image_dir : string) (mn mx : float) (s : state W G) :
  (average mn mx =? 0)%float = false ->
  Py.is_finite (60 / average mn mx) = true ->
  (0 <= Py.to_Q (60 / average mn mx))%Q ->
  os_path_exists (world s) image_dir = true ->
  find_audio_files (world s) image_dir <> [] ->
  exists o w',
    create_slideshow_with_audio image_dir true false mn mx s
    = (Ret o,
       mkState w' (rng s)
         (calls s
          ++ CallPrintFfmpegCapabilities
             :: discovery_calls image_dir
                  (find_audio_files (world s) image_dir)
          ++ delegation_calls
               (negb (os_path_exists (world s)
                        (os_path_join (W := W) image_dir AUDIO_OUTPUT)))
               (find_audio_files (world s) image_dir)
               (firstn (Z.to_nat (Qfloor (Py.to_Q (60 / average mn mx))))
                  (images_in (world s) image_dir))
               mn mx o))
    /\ is_delegation_outcome o = true.
Proof.
  intros Havg Hfin H0 Hdir Hfiles.
  apply (full_run_delegation image_dir true mn mx s
           (Qfloor (Py.to_Q (60 / average mn mx)))
           (firstn (Z.to_nat (Qfloor (Py.to_Q (60 / average mn mx))))
              (images_in (world s) image_dir))
           (rng s) Hdir Hfiles).
  - rewrite test_mode_closed_form by assumption.
    unfold quotient. now rewrite trunc_nonneg_floor.
  - apply select_test_spec.
    change 0 with (Qfloor 0). now apply Qfloor_resp_le.
Qed.

(** X14: a full run in Full mode over an existing directory with audio and
    at least one image, when the binary64 quotient of the total audio
    duration by the average is finite and not negative (average not zero,
    cap convertible to a float), hands the delegation stages the whole
    sorted catalog followed by repeats drawn from it,
    [max(len(catalog), min(floor(quotient), cap))] images in all. *)
Theorem full_run_renders_catalog_then_repeats
    (image_dir : string) (mn mx : float) (s : state W G) :
  let audio_files := find_audio_files (world s) image_dir in
  let catalog := images_in (world s) image_dir in
  let q := (get_total_audio_duration (world s) audio_files
            / average mn mx)%float in
  randbelow_in_range ->
  (average mn mx =? 0)%float = false ->
  Py.is_finite q = true ->
  (0 <= Py.to_Q q)%Q ->
  Py.float_fits MAX_SLIDES_LIMIT = true ->
  os_path_exists (world s) image_dir = true ->
  audio_files <> [] ->
  catalog <> [] ->
  exists extra o w' g',
    create_slideshow_with_audio image_dir false false mn mx s
    = (Ret o,
       mkState w' g'
         (calls s
          ++ CallPrintFfmpegCapabilities
             :: discovery_calls image_dir audio_files
          ++ delegation_calls
               (negb (os_path_exists (world s)
                        (os_path_join (W := W) image_dir AUDIO_OUTPUT)))
               audio_files (catalog ++ extra) mn mx o))
    /\ is_delegation_outcome o = true
    /\ (forall img, In img extra -> In img catalog)
    /\ Z.of_nat (length (catalog ++ extra))
       = Z.max (Z.of_nat (length catalog))
           (Z.min (Qfloor (Py.to_Q q)) MAX_SLIDES_LIMIT).
Proof.
  intros audio_files catalog q Hrange Havg Hfin H0 Hcap Hdir Hfiles Hcat.
  set (n := Z.min (Qfloor (Py.to_Q q)) MAX_SLIDES_LIMIT).
  destruct (select_full_spec Hrange catalog n (rng s) Hcat)
    as (extra & g' & Esel & Hlen & Hall).
  destruct (full_run_delegation image_dir false mn mx s n
              (catalog ++ extra) g' Hdir Hfiles)
    as (o & w' & E & Ho).
  - rewrite full_mode_closed_form by assumption.
    unfold quotient. fold audio_files. fold q.
    now rewrite trunc_nonneg_floor.
  - exact Esel.
  - exists extra, o, w', g'. split; [exact E|]. split; [exact Ho|]. split.
    + intros img Hin. rewrite Forall_forall in Hall. now apply Hall.
    + rewrite length_app, Hlen. unfold n. lia.
Qed.

(** X15: a directory without images is not an error: a full run over an
    existing directory with audio for which the planner has a count to
    return (average not zero, quotient finite, cap convertible to a float)
    goes on into the delegation stages with an empty image list, in
    either mode, and without touching the random generator. *)
Theorem empty_catalog_still_delegates
    (image_dir : string) (test_mode : bool) (mn mx : float) (s : state W G) :
  (average mn mx =? 0)%float = false ->
  Py.is_finite
    (quotient
       (get_total_audio_duration (world s)
          (find_audio_files (world s) image_dir)) mn mx test_mode) = true ->
  Py.float_fits MAX_SLIDES_LIMIT = true ->
  os_path_exists (world s) image_dir = true ->
  find_audio_files (world s) image_dir <> [] ->
  images_in (world s) image_dir = [] ->
  exists o w',
    create_slideshow_with_audio image_dir test_mode false mn mx s
    = (Ret o,
       mkState w' (rng s)
         (calls s
          ++ CallPrintFfmpegCapabilities
             :: discovery_calls image_dir
                  (find_audio_files (world s) image_dir)
          ++ delegation_calls
               (negb (os_path_exists (world s)
                        (os_path_join (W := W) image_dir AUDIO_OUTPUT)))
               (find_audio_files (world s) image_dir) [] mn mx o))
    /\ is_delegation_outcome o = true.
Proof.
  intros Havg Hfin Hcap Hdir Hfiles Hcat.
  destruct (planner_returns _ mn mx test_mode Havg Hfin Hcap) as [n Hplan].
  apply (full_run_delegation image_dir test_mode mn mx s n [] (rng s)
           Hdir Hfiles Hplan).
  rewrite Hcat. apply select_images_empty.
Qed.

End OrchestratorMore.

(** ** The further properties on the sample environment *)

Section MoreRuns.

Import Sample.

Lemma selection_stays_in_catalog_witness :
  exists images g',
    select_images catalog5 8 false 5%nat = (Ret images, g')
    /\ forall img, In img images -> In img catalog5.
Proof.
  apply (selection_stays_in_catalog catalog5 8 false 5%nat).
  exact sample_randbelow_in_range.
Defined.

(** Five images and a slide count of -2: the first three are selected. *)
Example test_mode_minus_two :
  select_images catalog5 (-2) true 5%nat
  = (Ret ["a.png"; "b.png"; "c.png"]%string, 5%nat).
Proof. reflexivity. Qed.

Lemma test_mode_negative_count_drops_tail_witness :
  exists images,
    select_images catalog5 (-2) true 5%nat = (Ret images, 5%nat)
    /\ Z.of_nat (length images) = Z.max 0 (Z.of_nat (length catalog5) + -2)
    /\ exists dropped,
         catalog5 = images ++ dropped
         /\ Z.of_nat (length dropped)
            = Z.min (- -2) (Z.of_nat (length catalog5)).
Proof.
  apply (test_mode_negative_count_drops_tail catalog5 (-2) 5%nat). lia.
Defined.

Lemma full_mode_pipeline_count_witness :
  exists n images g',
    calculate_slides_needed 40 3 7 false = Ret n
    /\ select_images catalog5 n false 5%nat = (Ret images, g')
    /\ Z.of_nat (length images)
       = Z.max (Z.of_nat (length catalog5))
           (Z.min (Qfloor (Py.to_Q (quotient 40 3 7 false)))
              MAX_SLIDES_LIMIT)
    /\ Z.of_nat (length catalog5) <= Z.of_nat (length images)
    /\ Z.of_nat (length images)
       <= Z.max (Z.of_nat (length catalog5)) MAX_SLIDES_LIMIT.
Proof.
  apply (full_mode_pipeline_count 40%float 3%float 7%float catalog5 5%nat).
  - exact sample_randbelow_in_range.
  - reflexivity.
  - reflexivity.
  - vm_compute. discriminate.
  - reflexivity.
  - discriminate.
Defined.

(** The sample directory lists [a.jpg] before [b.png]: the order is by
    path, not by extension. *)
Example find_images_sample :
  fst (find_images "show" (start fresh_dir))
  = Ret ["show/a.jpg"; "show/b.png"]%string.
Proof. reflexivity. Qed.

Lemma delegation_stages_in_order_witness :
  create_slideshow_with_audio "show" true false 3 7 (start fresh_dir)
  = (Ret Success,
     mkState
       ["slideshow_with_audio.mp4"; "merged_audio.m4a"; "show";
        "show/b.png"; "show/a.jpg"; "show/track.mp3"]%string
       5%nat
       [CallPrintFfmpegCapabilities; CallFindAudioFiles "show";
        CallGetTotalAudioDuration ["show/track.mp3"%string];
        CallGlob "show/*.png"; CallGlob "show/*.jpg";
        CallMergeAudio ["show/track.mp3"%string] "merged_audio.m4a";
        CallCreateSlideshow ["show/a.jpg"; "show/b.png"]%string
          "slideshow_video.mp4" 3 7;
        CallCombineVideoAudio "slideshow_video.mp4" "merged_audio.m4a"
          "slideshow_with_audio.mp4";
        CallOsRemove "slideshow_video.mp4"]).
Proof.
  refine (delegation_stages_in_order "show" true 3%float 7%float
            (start fresh_dir) 12 ["show/a.jpg"; "show/b.png"]%string 5%nat
            _ _ _ _).
  - reflexivity.
  - discriminate.
  - reflexivity.
  - reflexivity.
Defined.

(** With a combiner that reports failure the run ends with "Final
    combination failed!" and the intermediate video stays in place. *)
Example failed_combine_keeps_video :
  let run := create_slideshow_with_audio (A := failing_combiner)
               "show" true false 3 7 (start fresh_dir) in
  fst run = Ret FinalCombinationFailed
  /\ existsb is_remove (calls (snd run)) = false
  /\ os_path_exists (world (snd run)) "slideshow_video.mp4" = true.
Proof. repeat split. Qed.

Lemma missing_merged_audio_is_merged_first_witness :
  exists o w' rest,
    create_slideshow_with_audio "show" true false 3 7 (start fresh_dir)
    = (Ret o,
       mkState w' 5%nat
         ([] ++ CallPrintFfmpegCapabilities
             :: discovery_calls "show" (find_audio_files fresh_dir "show")
             ++ CallMergeAudio (find_audio_files fresh_dir "show")
                  AUDIO_OUTPUT :: rest))
    /\ (fst (merge_audio fresh_dir (find_audio_files fresh_dir "show")
               AUDIO_OUTPUT) = false ->
        o = AudioProcessingFailed /\ rest = []
        /\ w' = snd (merge_audio fresh_dir
                       (find_audio_files fresh_dir "show") AUDIO_OUTPUT))
    /\ (fst (merge_audio fresh_dir (find_audio_files fresh_dir "show")
               AUDIO_OUTPUT) = true ->
        exists rest',
          rest = CallCreateSlideshow ["show/a.jpg"; "show/b.png"]%string
                   VIDEO_OUTPUT 3 7 :: rest').
Proof.
  apply (missing_merged_audio_is_merged_first "show" true 3%float 7%float
           (start fresh_dir) 12 ["show/a.jpg"; "show/b.png"]%string 5%nat).
  - reflexivity.
  - discriminate.
  - reflexivity.
  - reflexivity.
  - reflexivity.
Defined.

Lemma zero_range_run_raises_after_discovery_witness :
  create_slideshow_with_audio "show" false false 0 0 (start fresh_dir)
  = (Raise ZeroDivisionError,
     mkState fresh_dir 5%nat
       ([] ++ [CallPrintFfmpegCapabilities]
           ++ discovery_calls "show" (find_audio_files fresh_dir "show"))).
Proof.
  apply (zero_range_run_raises_after_discovery "show" false false
           0%float 0%float (start fresh_dir)).
  - reflexivity.
  - reflexivity.
  - discriminate.
Defined.

Lemma test_run_renders_first_images_witness :
  exists o w',
    create_slideshow_with_audio "show" true false 3 7 (start fresh_dir)
    = (Ret o,
       mkState w' 5%nat
         ([] ++ CallPrintFfmpegCapabilities
             :: discovery_calls "show" (find_audio_files fresh_dir "show")
             ++ delegation_calls
                  (negb (os_path_exists fresh_dir
                           (os_path_join (W := W) "show" AUDIO_OUTPUT)))
                  (find_audio_files fresh_dir "show")
                  (firstn (Z.to_nat (Qfloor (Py.to_Q (60 / average 3 7))))
                     (images_in fresh_dir "show"))
                  3 7 o))
    /\ is_delegation_outcome o = true.
Proof.
  apply (test_run_renders_first_images "show" 3%float 7%float
           (start fresh_dir)).
  - reflexivity.
  - reflexivity.
  - vm_compute. discriminate.
  - reflexivity.
  - discriminate.
Defined.

Lemma full_run_renders_catalog_then_repeats_witness :
  exists extra o w' g',
    create_slideshow_with_audio "show" false false 3 7 (start fresh_dir)
    = (Ret o,
       mkState w' g'
         ([] ++ CallPrintFfmpegCapabilities
             :: discovery_calls "show" (find_audio_files fresh_dir "show")
             ++ delegation_calls
                  (negb (os_path_exists fresh_dir
                           (os_path_join (W := W) "show" AUDIO_OUTPUT)))
                  (find_audio_files fresh_dir "show")
                  (images_in fresh_dir "show" ++ extra) 3 7 o))
    /\ is_delegation_outcome o = true
    /\ (forall img, In img extra -> In img (images_in fresh_dir "show"))
    /\ Z.of_nat (length (images_in fresh_dir "show" ++ extra))
       = Z.max (Z.of_nat (length (images_in fresh_dir "show")))
           (Z.min
              (Qfloor
                 (Py.to_Q
                    (get_total_audio_duration fresh_dir
                       (find_audio_files fresh_dir "show")
                     / average 3 7)))
              MAX_SLIDES_LIMIT).
Proof.
  apply (full_run_renders_catalog_then_repeats "show" 3%float 7%float
           (start fresh_dir)).
  - exact sample_randbelow_in_range.
  - reflexivity.
  - reflexivity.
  - vm_compute. discriminate.
  - reflexivity.
  - reflexivity.
  - discriminate.
  - discriminate.
Defined.

(** Without pictures the renderer is still called, on the empty list. *)
Example audio_only_sample :
  calls (snd (create_slideshow_with_audio "show" false false 3 7
                (start audio_only_dir)))
  = [CallPrintFfmpegCapabilities; CallFindAudioFiles "show";
     CallGetTotalAudioDuration ["show/track.mp3"%string];
     CallGlob "show/*.png"; CallGlob "show/*.jpg";
     CallMergeAudio ["show/track.mp3"%string] "merged_audio.m4a";
     CallCreateSlideshow [] "slideshow_video.mp4" 3 7;
     CallCombineVideoAudio "slideshow_video.mp4" "merged_audio.m4a"
       "slideshow_with_audio.mp4";
     CallOsRemove "slideshow_video.mp4"].
Proof. reflexivity. Qed.

Lemma empty_catalog_still_delegates_witness :
  exists o w',
    create_slideshow_with_audio "show" false false 3 7 (start audio_only_dir)
    = (Ret o,
       mkState w' 5%nat
         ([] ++ CallPrintFfmpegCapabilities
             :: discovery_calls "show"
                  (find_audio_files audio_only_dir "show")
             ++ delegation_calls
                  (negb (os_path_exists audio_only_dir
                           (os_path_join (W := W) "show" AUDIO_OUTPUT)))
                  (find_audio_files audio_only_dir "show") [] 3 7 o))
    /\ is_delegation_outcome o = true.
Proof.
  apply (empty_catalog_still_delegates "show" false 3%float 7%float
           (start audio_only_dir)).
  - reflexivity.
  - reflexivity.
  - reflexivity.
  - reflexivity.
  - discriminate.
  - reflexivity.
Defined.

End MoreRuns.
